(** * The Google sign-in bridge of the storefront login server

    A shallow embedding of [login-server/server.js]: the helpers that talk
    to the commerce platform, the handler of [POST /api/auth/google] and the
    middleware chain around it, followed by the properties the specification
    states about them.

    Conventions of the embedding.
    - JavaScript values are the JSON values the program handles, plus
      [undefined].  Numbers are the integer identifiers the commerce
      platform hands out: [VNum n] is the number [n] when [n] is a safe
      integer (at most 2^53 - 1 in absolute value, where a double holds
      every integer exactly), and the double nearest to [n] otherwise.  The
      program only tests numbers for truthiness and prints them into a
      URL; how a number beyond the safe integers prints is left to the
      runtime.
    - An [async] function is a program tree ([prog]) whose nodes are the two
      kinds of outbound call the server makes: a verification of an identity
      token and an HTTP exchange.  A thrown exception or a rejected promise
      is the left summand of the tree's result.
    - Console output is not part of the model: no operand of a logging call
      can throw where the program evaluates it. *)

From Stdlib Require Import String Ascii ZArith List Bool Lia.
From Stdlib Require Import DecimalString DecimalPos DecimalZ.
Import ListNotations.
Local Open Scope string_scope.
Local Open Scope Z_scope.
Set Warnings "-register-all".

(** ** JavaScript values *)

Inductive value : Type :=
| VUndefined
| VNull
| VBool (b : bool)
| VNum (n : Z)
| VStr (s : string)
| VArr (items : list value)
| VObj (props : list (string * value)).

(** An [Error] object, as far as the program reads it. *)
Record error : Type := mkError { message : string; stack : string }.

(** The variables the server reads from [process.env] (lines 13-16).  The
    check of line 19 stops the process when one of them is missing, so a
    serving process has all four. *)
Class Env : Type := {
  SHOPIFY_STORE_URL : string;
  SHOPIFY_ACCESS_TOKEN : string;
  SHOPIFY_STOREFRONT_ACCESS_TOKEN : string;
  GOOGLE_CLIENT_ID : string
}.

(** What the hosting runtime decides and the program does not: the text of
    the stack trace captured by [new Error(m)]; the message of the
    [TypeError] raised by a property read on [null] or [undefined]; the text
    [String(x)] of a number beyond the safe integers; Express's matching of
    the pattern of a route against a request path; and whether
    [decodeURIComponent] accepts a path, which Express applies to the path
    a ["*"] layer captures before it runs the layer's handler. *)
Class Runtime : Type := {
  captureStackTrace : string -> string;
  cannotRead : value -> string -> string;
  numberText : Z -> string;
  matches : string -> string -> bool;
  decodes : string -> bool
}.

(** [!!v] *)
Definition truthy (v : value) : bool :=
  match v with
  | VUndefined | VNull => false
  | VBool b => b
  | VNum n => negb (n =? 0)
  | VStr s => negb (s =? "")%string
  | VArr _ | VObj _ => true
  end.

(** [v == null] *)
Definition nullish (v : value) : bool :=
  match v with
  | VUndefined | VNull => true
  | _ => false
  end.

(** [a || b] *)
Definition or_else (a b : value) : value := if truthy a then a else b.

Fixpoint assoc {A : Type} (k : string) (l : list (string * A)) : option A :=
  match l with
  | [] => None
  | (k', a) :: l' => if (k =? k')%string then Some a else assoc k l'
  end.

Fixpoint join (sep : string) (l : list string) : string :=
  match l with
  | [] => ""
  | [s] => s
  | s :: l' => s ++ sep ++ join sep l'
  end.

Definition decimal (n : Z) : string := NilZero.string_of_int (Z.to_int n).

(** [Number.isSafeInteger(n)] *)
Definition safe (n : Z) : bool :=
  (-9007199254740991 <=? n) && (n <=? 9007199254740991).

(** [hay.includes(needle)] on strings. *)
Fixpoint includes (needle hay : string) : bool :=
  String.prefix needle hay ||
  match hay with
  | EmptyString => false
  | String _ rest => includes needle rest
  end.

Section Reads.
Context {R : Runtime}.

(** [String(v)], the conversion a template literal applies to [${v}].  A
    safe integer prints as its decimal digits; beyond them the runtime
    prints the nearest double, in digits or with an exponent. *)
Fixpoint to_string (v : value) : string :=
  match v with
  | VUndefined => "undefined"
  | VNull => "null"
  | VBool true => "true"
  | VBool false => "false"
  | VNum n => if safe n then decimal n else numberText n
  | VStr s => s
  | VArr items =>
      join "," (map (fun x => match x with
                              | VUndefined | VNull => ""
                              | _ => to_string x
                              end) items)
  | VObj _ => "[object Object]"
  end.

(** [new Error(m)] *)
Definition Error (m : string) : error :=
  {| message := m; stack := captureStackTrace m |}.

(** [v.p] for a property name [p] written in the program.  Objects come
    from [JSON.parse] and from object literals, so a read is a lookup among
    their own properties; arrays and strings have [length]; any other read
    of a primitive is [undefined]; a read of [null] or [undefined] throws. *)
Definition get (v : value) (p : string) : error + value :=
  match v with
  | VUndefined | VNull => inl (Error (cannotRead v p))
  | VObj props => inr (match assoc p props with Some x => x | None => VUndefined end)
  | VArr items => inr (if (p =? "length")%string then VNum (Z.of_nat (List.length items)) else VUndefined)
  | VStr s => inr (if (p =? "length")%string then VNum (Z.of_nat (String.length s)) else VUndefined)
  | VBool _ | VNum _ => inr VUndefined
  end.

(** [v.p] where the read does not throw. *)
Definition read (v : value) (p : string) : value :=
  match get v p with
  | inr x => x
  | inl _ => VUndefined
  end.

(** [v?.[0]]: short-circuits to [undefined] on [null] and [undefined]. *)
Definition first_of (v : value) : value :=
  match v with
  | VArr (x :: _) => x
  | VStr (String c _) => VStr (String c EmptyString)
  | VObj props => match assoc "0" props with Some x => x | None => VUndefined end
  | _ => VUndefined
  end.

End Reads.

(** ** Outbound calls *)

Record request : Type := mkRequest {
  verb : string;
  url : string;
  payload : option value;
  sent : list (string * string)
}.

Record response : Type := mkResponse {
  status : Z;
  headers : list (string * string);
  data : value
}.

(** What the network does with a request: no answer, or an HTTP answer of
    any status. *)
Inductive wire : Type :=
| Unreachable (e : error)
| Answered (r : response).

(** A program that awaits outbound calls: [Verify] is
    [client.verifyIdToken({ idToken, audience })] followed by
    [ticket.getPayload()], [Http] one request sent by axios. *)
Inductive prog (A : Type) : Type :=
| Ret (a : A)
| Verify (idToken : value) (audience : string) (k : error + value -> prog A)
| Http (rq : request) (k : wire -> prog A).

Arguments Ret {A} a.
Arguments Verify {A} idToken audience k.
Arguments Http {A} rq k.

Fixpoint bind {A B : Type} (p : prog A) (f : A -> prog B) : prog B :=
  match p with
  | Ret a => f a
  | Verify t a k => Verify t a (fun r => bind (k r) f)
  | Http rq k => Http rq (fun r => bind (k r) f)
  end.

(** Programs that may throw. *)
Definition M (A : Type) : Type := prog (error + A).

Definition ret {A : Type} (a : A) : M A := Ret (inr a).
Definition throw {A : Type} (e : error) : M A := Ret (inl e).
Definition pure {A : Type} (r : error + A) : M A := Ret r.
Definition await {A : Type} (p : prog A) : M A := bind p ret.

Definition bindM {A B : Type} (m : M A) (f : A -> M B) : M B :=
  bind m (fun r => match r with inl e => Ret (inl e) | inr a => f a end).

(** [try { m } catch (error) { h error }] *)
Definition try_catch {A : Type} (m : M A) (h : error -> prog A) : prog A :=
  bind m (fun r => match r with inl e => h e | inr a => Ret a end).

Declare Scope js_scope.
Delimit Scope js_scope with js.
Notation "x <- m ;; k" := (bindM m (fun x => k))
  (at level 100, m at next level, right associativity) : js_scope.

(** ** The server *)

Section Server.
Context {env : Env} {R : Runtime}.
Local Open Scope js_scope.

(** axios with its default [validateStatus]: the promise is fulfilled by an
    answer whose status is in [200, 300) and rejected otherwise. *)
Definition settle (w : wire) : error + response :=
  match w with
  | Unreachable e => inl e
  | Answered r =>
      if (200 <=? status r) && (status r <? 300) then inr r
      else inl (Error ("Request failed with status code " ++ decimal (status r)))
  end.

Definition axios (rq : request) : M response := Http rq (fun w => Ret (settle w)).

(** [client.verifyIdToken({ idToken, audience })] then [ticket.getPayload()]
    (lines 166-171). *)
Definition verifyIdToken (idToken : value) (audience : string) : M value :=
  Verify idToken audience (fun r => Ret r).

(** Lines 38-48. *)
Definition handleApiResponse (response : response) : value :=
  match assoc "content-type" (headers response) with
  | Some ct =>
      if includes "html" ct
      then VObj [("error", VStr "Expected JSON, received HTML. Likely a wrong endpoint or failed auth.")]
      else data response
  | None => data response
  end.

(** The request of lines 53-55. *)
Definition search_request (email : value) : request :=
  {| verb := "GET";
     url := SHOPIFY_STORE_URL ++ "/admin/api/2023-10/customers/search.json?query=email:" ++ to_string email;
     payload := None;
     sent := [("X-Shopify-Access-Token", SHOPIFY_ACCESS_TOKEN)] |}.

(** Lines 51-64. *)
Definition findCustomerByEmail (email : value) : prog value :=
  try_catch
    (response <- axios (search_request email) ;;
     let data := handleApiResponse response in
     err <- pure (get data "error") ;;
     if truthy err then ret VNull
     else
       customers <- pure (get data "customers") ;;
       ret (or_else (first_of customers) VNull))
    (fun _ => Ret VNull).

(** The request of lines 69-80. *)
Definition create_request (given_name family_name email : value) : request :=
  {| verb := "POST";
     url := SHOPIFY_STORE_URL ++ "/admin/api/2023-10/customers.json";
     payload := Some (VObj [("customer", VObj [
       ("first_name", given_name);
       ("last_name", family_name);
       ("email", email);
       ("verified_email", VBool true);
       ("password", VStr "Default@123");
       ("password_confirmation", VStr "Default@123")])]);
     sent := [("X-Shopify-Access-Token", SHOPIFY_ACCESS_TOKEN)] |}.

(** Lines 67-89. *)
Definition createCustomer (payload : value) : prog value :=
  try_catch
    (given_name <- pure (get payload "given_name") ;;
     family_name <- pure (get payload "family_name") ;;
     email <- pure (get payload "email") ;;
     response <- axios (create_request given_name family_name email) ;;
     let data := handleApiResponse response in
     err <- pure (get data "error") ;;
     if truthy err then ret VNull
     else pure (get data "customer"))
    (fun _ => Ret VNull).

(** The request of lines 94-102. *)
Definition update_request (customerId newPassword : value) : request :=
  {| verb := "PUT";
     url := SHOPIFY_STORE_URL ++ "/admin/api/2023-10/customers/" ++ to_string customerId ++ ".json";
     payload := Some (VObj [("customer", VObj [
       ("id", customerId);
       ("password", newPassword);
       ("password_confirmation", newPassword)])]);
     sent := [("X-Shopify-Access-Token", SHOPIFY_ACCESS_TOKEN)] |}.

(** Lines 92-111. *)
Definition updateCustomerPassword (customerId newPassword : value) : prog value :=
  try_catch
    (response <- axios (update_request customerId newPassword) ;;
     let data := handleApiResponse response in
     err <- pure (get data "error") ;;
     if truthy err then ret VNull
     else pure (get data "customer"))
    (fun _ => Ret VNull).

(** The text of the GraphQL document of lines 117-130. *)
Definition mutation : string := "
                mutation customerAccessTokenCreate($input: CustomerAccessTokenCreateInput!) {
                    customerAccessTokenCreate(input: $input) {
                        customerAccessToken {
                            accessToken
                            expiresAt
                        }
                        userErrors {
                            field
                            message
                        }
                    }
                }
            ".

(** The request of lines 116-137. *)
Definition token_request (email : value) : request :=
  {| verb := "POST";
     url := SHOPIFY_STORE_URL ++ "/api/2024-04/graphql.json";
     payload := Some (VObj [
       ("query", VStr mutation);
       ("variables", VObj [("input", VObj [
          ("email", email);
          ("password", VStr "12$@565mnbvfethiwpldkao")])])]);
     sent := [("X-Shopify-Storefront-Access-Token", SHOPIFY_STOREFRONT_ACCESS_TOKEN);
              ("Content-Type", "application/json")] |}.

(** Lines 114-153. *)
Definition createCustomerAccessToken (email : value) : prog value :=
  try_catch
    (response <- axios (token_request email) ;;
     let data := handleApiResponse response in
     err <- pure (get data "error") ;;
     if truthy err then ret VNull
     else
       inner <- pure (get data "data") ;;
       tokenData <- pure (get inner "customerAccessTokenCreate") ;;
       userErrors <- pure (get tokenData "userErrors") ;;
       len <- pure (get userErrors "length") ;;
       if truthy len then ret VNull
       else
         customerAccessToken <- pure (get tokenData "customerAccessToken") ;;
         pure (get customerAccessToken "accessToken"))
    (fun _ => Ret VNull).

(** What the handler sends: [res.status(code).json(body)]; [res.json(body)]
    alone leaves the status at 200. *)
Record reply : Type := mkReply { code : Z; json : value }.

(** The body sent by the [catch] of lines 210-218. *)
Definition authentication_failed (error : error) : reply :=
  {| code := 500;
     json := VObj [
       ("success", VBool false);
       ("error", VStr "Authentication failed");
       ("details", VStr (message error));
       ("stack", VStr (stack error))] |}.

(** The body of the [try] of the handler (lines 166-208). *)
Definition orchestrate (token : value) : M reply :=
  payload <- verifyIdToken token GOOGLE_CLIENT_ID ;;
  email <- pure (get payload "email") ;;
  found <- await (findCustomerByEmail email) ;;
  customer <-
    (if negb (truthy found) then
       created <- await (createCustomer payload) ;;
       if negb (truthy created)
       then throw (Error "Failed to create customer in Shopify")
       else ret created
     else
       id <- pure (get found "id") ;;
       updatedCustomer <- await (updateCustomerPassword id (VStr "Default@123")) ;;
       if negb (truthy updatedCustomer)
       then throw (Error "Failed to update customer password")
       else ret found) ;;
  customerToken <- await (createCustomerAccessToken email) ;;
  if negb (truthy customerToken)
  then throw (Error "Failed to generate customer access token")
  else
    let redirectUrl := SHOPIFY_STORE_URL ++ "/account" in
    id <- pure (get customer "id") ;;
    email' <- pure (get customer "email") ;;
    first_name <- pure (get customer "first_name") ;;
    last_name <- pure (get customer "last_name") ;;
    ret {| code := 200;
           json := VObj [
             ("success", VBool true);
             ("token", customerToken);
             ("redirectUrl", VStr redirectUrl);
             ("customer", VObj [
                ("id", id);
                ("email", email');
                ("firstName", first_name);
                ("lastName", last_name)])] |}.

(** The handler of [POST /api/auth/google] (lines 156-219), applied to
    [req.body].  The destructuring of line 157 is outside the [try]: what
    it throws rejects the handler's promise. *)
Definition auth_google (body : value) : M reply :=
  token <- pure (get body "token") ;;
  if negb (truthy token) then
    ret {| code := 400;
           json := VObj [("success", VBool false); ("error", VStr "Token is required")] |}
  else
    await (try_catch (orchestrate token) (fun error => Ret (authentication_failed error))).

End Server.

(** ** Start-up *)

(** [process.env] as the start of the program reads it (lines 10-16): each
    variable is a string or is not set. *)
Record process_env : Type := mkProcessEnv {
  env_PORT : option string;
  env_SHOPIFY_STORE_URL : option string;
  env_SHOPIFY_ACCESS_TOKEN : option string;
  env_SHOPIFY_STOREFRONT_ACCESS_TOKEN : option string;
  env_GOOGLE_CLIENT_ID : option string
}.

(** The value of [process.env.X]. *)
Definition variable (x : option string) : value :=
  match x with
  | Some s => VStr s
  | None => VUndefined
  end.

(** Line 10: [process.env.PORT || 3000]. *)
Definition PORT (pe : process_env) : value :=
  or_else (variable (env_PORT pe)) (VNum 3000).

(** Lines 13-22: the process exits with status 1 when one of the four
    variables is falsy, and otherwise goes on to serve with them. *)
Definition startup (pe : process_env) : Z + Env :=
  match env_SHOPIFY_STORE_URL pe, env_SHOPIFY_ACCESS_TOKEN pe,
        env_SHOPIFY_STOREFRONT_ACCESS_TOKEN pe, env_GOOGLE_CLIENT_ID pe with
  | Some store, Some admin, Some storefront, Some client =>
      if negb (truthy (VStr store)) || negb (truthy (VStr admin)) ||
         negb (truthy (VStr storefront)) || negb (truthy (VStr client))
      then inl 1
      else inr {| SHOPIFY_STORE_URL := store;
                  SHOPIFY_ACCESS_TOKEN := admin;
                  SHOPIFY_STOREFRONT_ACCESS_TOKEN := storefront;
                  GOOGLE_CLIENT_ID := client |}
  | _, _, _, _ => inl 1
  end.

(** ** The middleware chain *)

(** The entity of an incoming request as [bodyParser.json()] classifies it:
    no JSON entity (it leaves [req.body] at [{}]), an entity that parses to a
    value, or one that does not parse. *)
Inductive entity : Type :=
| Absent
| Parsed (v : value)
| Malformed.

Record incoming : Type := mkIncoming {
  method : string;
  path : string;
  content : entity
}.

Inductive sent_body : Type :=
| Empty
| Json (v : value)
| ErrorPage.

(** The answer of the server: the status, the body, and the headers the
    program itself sets (those the libraries add are not listed). *)
Record served : Type := mkServed {
  head : list (string * string);
  status_code : Z;
  sent_content : sent_body
}.

Section App.
Context {env : Env} {R : Runtime}.
Local Open Scope js_scope.

(** Lines 31-35. *)
Definition relaxed_headers : list (string * string) :=
  [("Cross-Origin-Opener-Policy", "same-origin-allow-popups");
   ("Cross-Origin-Embedder-Policy", "unsafe-none")].

(** The application of lines 27-35, 156 and 222, in registration order.
    - [cors()] with its defaults ends a preflight ([OPTIONS]) request itself,
      with status 204 and no body, and passes every other request on.
    - [bodyParser.json()] passes an error to Express when the entity does
      not parse, which answers 400 with its error page.
    - The route of line 156 takes [POST] requests whose path matches.
    - The layer mounted on ["*"] takes what is left.  Express decodes the
      path the layer captures before it calls the handler of line 222, and
      answers 400 with its error page when the path does not decode (a
      stray [%], as in [/%]). *)
Definition app (rq : incoming) : M served :=
  if (method rq =? "OPTIONS")%string then
    ret {| head := []; status_code := 204; sent_content := Empty |}
  else
    match content rq with
    | Malformed =>
        ret {| head := []; status_code := 400; sent_content := ErrorPage |}
    | Absent | Parsed _ =>
        let body := match content rq with Parsed v => v | _ => VObj [] end in
        if (method rq =? "POST")%string && matches "/api/auth/google" (path rq) then
          r <- auth_google body ;;
          ret {| head := relaxed_headers; status_code := code r; sent_content := Json (json r) |}
        else if decodes (path rq) then
          ret {| head := relaxed_headers; status_code := 404;
                 sent_content := Json (VObj [("error", VStr "Not Found")]) |}
        else
          ret {| head := relaxed_headers; status_code := 400; sent_content := ErrorPage |}
    end.

End App.

(** ** Running a program against the outside world *)

(** The identity provider and the network, as functions of a state [W] of
    the outside world. *)
Record world (W : Type) : Type := mkWorld {
  identity : value -> string -> W -> (error + value) * W;
  network : request -> W -> wire * W
}.

Arguments identity {W} _ _ _ _.
Arguments network {W} _ _ _.

Inductive call : Type :=
| Verified (idToken : value) (audience : string)
| Requested (rq : request).

(** [run E p w]: the result of [p], the outbound calls it made, in order,
    and the state the world is left in. *)
Fixpoint run {W A : Type} (E : world W) (p : prog A) (w : W) : A * list call * W :=
  match p with
  | Ret a => (a, [], w)
  | Verify t a k =>
      let (r, w1) := identity E t a w in
      let '(x, tr, w2) := run E (k r) w1 in
      (x, Verified t a :: tr, w2)
  | Http rq k =>
      let (r, w1) := network E rq w in
      let '(x, tr, w2) := run E (k r) w1 in
      (x, Requested rq :: tr, w2)
  end.

(** The program that remains once the call it is waiting for is answered. *)
Definition answer_verify {A : Type} (p : prog A) (r : error + value) : prog A :=
  match p with
  | Verify _ _ k => k r
  | _ => p
  end.

Definition answer_http {A : Type} (p : prog A) (r : wire) : prog A :=
  match p with
  | Http _ k => k r
  | _ => p
  end.

(** A world that replays a script: the identity provider [idp] keeps no
    state, and the network serves the answers of the script one by one, and
    none once the script is exhausted. *)
Definition offline : error :=
  {| message := "connect ECONNREFUSED"; stack := "Error: connect ECONNREFUSED" |}.

Definition replay (idp : value -> string -> error + value) : world (list wire) :=
  {| identity := fun t a s => (idp t a, s);
     network := fun _ s =>
       match s with
       | [] => (Unreachable offline, [])
       | r :: rest => (r, rest)
       end |}.

Section Credentials.
Context {R : Runtime}.

Definition body_of (rq : request) : value :=
  match payload rq with Some v => v | None => VUndefined end.

(** The credential a request asks the platform to store
    ([customer.password] of a REST body) and the one it offers for a session
    token ([variables.input.password] of the GraphQL body); [undefined]
    when the request carries none. *)
Definition stored_credential (rq : request) : value :=
  read (read (body_of rq) "customer") "password".

Definition offered_credential (rq : request) : value :=
  read (read (read (body_of rq) "variables") "input") "password".

End Credentials.

Section Endpoints.
Context {env : Env} {R : Runtime}.


Definition is_session_mutation (rq : request) : bool :=
  ((verb rq =? "POST") &&
   (url rq =? SHOPIFY_STORE_URL ++ "/api/2024-04/graphql.json"))%string.

(** The four requests the server sends; the credential reset always
    carries the literal of line 183. *)
Definition expected (c : call) : Prop :=
  match c with
  | Verified _ _ => True
  | Requested rq =>
      (exists email, rq = search_request email) \/
      (exists given_name family_name email, rq = create_request given_name family_name email) \/
      (exists id, rq = update_request id (VStr "Default@123")) \/
      (exists email, rq = token_request email)
  end.

(** A request that writes a credential: create-account, or the credential
    reset with the literal of line 183. *)
Definition provisioning (rq : request) : Prop :=
  (exists given_name family_name email, rq = create_request given_name family_name email) \/
  (exists id, rq = update_request id (VStr "Default@123")).


(** A call to the platform fails: axios rejects it (no answer, or a status
    outside [200, 300)), or the answer is an HTML page, or its body reports
    an error. *)
Definition failed (answer : wire) : Prop :=
  (exists e, settle answer = inl e) \/
  (exists r ct, answer = Answered r /\
                assoc "content-type" (headers r) = Some ct /\
                includes "html" ct = true) \/
  (exists r err, answer = Answered r /\
                 get (handleApiResponse r) "error" = inr err /\
                 truthy err = true).


End Endpoints.

(** ** A reference commerce platform

    The platform is not part of the repository.  For the properties that
    span two requests it is replaced by the store the specification
    describes: accounts keyed by email, each with one credential; create
    adds an account, credential reset overwrites the credential, and the
    session mutation exchanges an email and a credential for a token.
    [strict] says whether the mutation compares the credential offered with
    the stored one. *)

Record account : Type := mkAccount {
  account_id : Z;
  account_email : string;
  account_first_name : value;
  account_last_name : value;
  account_password : string
}.

Record shop : Type := mkShop {
  accounts : list account;
  next_id : Z
}.

Definition account_json (a : account) : value :=
  VObj [("id", VNum (account_id a));
        ("email", VStr (account_email a));
        ("first_name", account_first_name a);
        ("last_name", account_last_name a)].

Definition answer (st : Z) (v : value) : wire :=
  Answered {| status := st;
              headers := [("content-type", "application/json; charset=utf-8")];
              data := v |}.

Definition set_password (id : Z) (pw : string) (a : account) : account :=
  if account_id a =? id
  then {| account_id := account_id a; account_email := account_email a;
          account_first_name := account_first_name a;
          account_last_name := account_last_name a;
          account_password := pw |}
  else a.

Definition session (a : account) : value :=
  VObj [("data", VObj [("customerAccessTokenCreate", VObj [
    ("customerAccessToken", VObj [
       ("accessToken", VStr ("session:" ++ account_email a));
       ("expiresAt", VStr "2099-01-01T00:00:00Z")]);
    ("userErrors", VArr [])])])].

Definition unidentified : value :=
  VObj [("data", VObj [("customerAccessTokenCreate", VObj [
    ("customerAccessToken", VNull);
    ("userErrors", VArr [VObj [
       ("field", VNull);
       ("message", VStr "Unidentified customer")]])])])].

Section Platform.
Context {env : Env} {R : Runtime}.
Variable strict : bool.

Definition credential_ok (a : account) (offered : value) : bool :=
  negb strict ||
  match offered with
  | VStr pw => (pw =? account_password a)%string
  | _ => false
  end.

Definition platform (rq : request) (s : shop) : wire * shop :=
  if (verb rq =? "GET")%string then
    (answer 200 (VObj [("customers",
       VArr (map account_json
          (filter (fun a => (url rq =? url (search_request (VStr (account_email a))))%string)
                  (accounts s))))]), s)
  else if (verb rq =? "PUT")%string then
    match find (fun a => (url rq =? url (update_request (VNum (account_id a)) VNull))%string)
               (accounts s), stored_credential rq with
    | Some a, VStr pw =>
        (answer 200 (VObj [("customer", account_json a)]),
         {| accounts := map (set_password (account_id a) pw) (accounts s);
            next_id := next_id s |})
    | Some _, _ => (answer 422 (VObj [("errors", VStr "password is invalid")]), s)
    | None, _ => (answer 404 (VObj [("errors", VStr "Not Found")]), s)
    end
  else if (url rq =? url (create_request VNull VNull VNull))%string then
    let customer := read (body_of rq) "customer" in
    match read customer "email", read customer "password" with
    | VStr e, VStr pw =>
        if existsb (fun a => (account_email a =? e)%string) (accounts s)
        then (answer 422 (VObj [("errors", VStr "email has already been taken")]), s)
        else
          let a := {| account_id := next_id s; account_email := e;
                      account_first_name := read customer "first_name";
                      account_last_name := read customer "last_name";
                      account_password := pw |} in
          (answer 201 (VObj [("customer", account_json a)]),
           {| accounts := accounts s ++ [a]; next_id := next_id s + 1 |})
    | _, _ => (answer 422 (VObj [("errors", VStr "email or password is invalid")]), s)
    end
  else if (url rq =? url (token_request VNull))%string then
    let input := read (read (body_of rq) "variables") "input" in
    match read input "email" with
    | VStr e =>
        match find (fun a => (account_email a =? e)%string && credential_ok a (read input "password"))
                   (accounts s) with
        | Some a => (answer 200 (session a), s)
        | None => (answer 200 unidentified, s)
        end
    | _ => (answer 200 unidentified, s)
    end
  else (answer 404 (VObj [("errors", VStr "Not Found")]), s).

(** The world made of an identity provider [idp], which keeps no state, and
    the reference platform. *)
Definition storefront (idp : value -> string -> error + value) : world shop :=
  {| identity := fun t a s => (idp t a, s);
     network := platform |}.

End Platform.

Definition empty_shop : shop := {| accounts := []; next_id := 1 |}.

(** ** A concrete deployment, for the examples *)

Definition demo_env : Env :=
  {| SHOPIFY_STORE_URL := "https://demo.myshopify.com";
     SHOPIFY_ACCESS_TOKEN := "shpat_demo";
     SHOPIFY_STOREFRONT_ACCESS_TOKEN := "storefront_demo";
     GOOGLE_CLIENT_ID := "demo.apps.googleusercontent.com" |}.

Definition demo_matches (pattern path : string) : bool :=
  (pattern =? "*")%string || (pattern =? path)%string.

Definition hexadecimal (c : ascii) : bool :=
  let n := nat_of_ascii c in
  ((48 <=? n) && (n <=? 57) || (65 <=? n) && (n <=? 70) || (97 <=? n) && (n <=? 102))%nat.

(** Whether every [%] of a path starts an escape of two hexadecimal
    digits.  [decodeURIComponent] throws on a path that fails this test and
    accepts a path without any [%]; the examples use it on such paths only. *)
Fixpoint demo_decodes (path : string) : bool :=
  match path with
  | EmptyString => true
  | String c rest =>
      if (c =? "%")%char then
        match rest with
        | String a (String b rest') => hexadecimal a && hexadecimal b && demo_decodes rest'
        | _ => false
        end
      else demo_decodes rest
  end.

(** [String(x)] as V8 prints a number given by an integer beyond the safe
    integers: the number is the double nearest to the integer, and its text
    the fewest digits that still denote that double, in full up to 21
    digits and with an exponent from there on. *)

(** The double nearest to a positive integer, ties to even. *)
Definition nearest_double (n : Z) : Z :=
  let e := Z.log2 n in
  if e <? 53 then n
  else
    let ulp := 2 ^ (e - 52) in
    let q := n / ulp in
    let r := n mod ulp in
    if (ulp <? 2 * r) || ((ulp =? 2 * r) && Z.odd q) then (q + 1) * ulp else q * ulp.

(** The integer with the fewest significant digits that the double [d] is
    nearest to, and the one closest to [d] when there are two: the multiples
    of [10 ^ zeros] next to [d] are tried, for fewer and fewer [zeros]. *)
Fixpoint shortest (d : Z) (zeros : nat) : Z :=
  match zeros with
  | O => d
  | S fewer =>
      let p := 10 ^ Z.of_nat zeros in
      let lo := d / p * p in
      let hi := lo + p in
      let lo_ok := (0 <? lo) && (nearest_double lo =? d) in
      let hi_ok := nearest_double hi =? d in
      if lo_ok && hi_ok then (if d - lo <=? hi - d then lo else hi)
      else if lo_ok then lo
      else if hi_ok then hi
      else shortest d fewer
  end.

(** The digits without the zeros at their end. *)
Fixpoint strip (digits : list ascii) : list ascii :=
  match digits with
  | [] => []
  | c :: rest =>
      match strip rest with
      | [] => if (c =? "0")%char then [] else [c]
      | rest' => c :: rest'
      end
  end.

Definition double_text (n : Z) : string :=
  let d := nearest_double n in
  if 2 ^ 1024 <=? d then "Infinity"
  else
    let t := decimal (shortest d (String.length (decimal d))) in
    if (String.length t <=? 21)%nat then t
    else
      match strip (list_ascii_of_string t) with
      | [] => t
      | [c] => String c ("e+" ++ decimal (Z.of_nat (String.length t) - 1))
      | c :: rest =>
          String c ("." ++ string_of_list_ascii rest ++ "e+" ++
                    decimal (Z.of_nat (String.length t) - 1))
      end.

Definition number_text (n : Z) : string :=
  if n <? 0 then "-" ++ double_text (- n) else double_text n.

Definition demo_runtime : Runtime :=
  {| captureStackTrace := fun m => "Error: " ++ m ++ " at server.js";
     cannotRead := fun v p =>
       "Cannot read properties of " ++
       match v with VNull => "null" | _ => "undefined" end ++
       " (reading '" ++ p ++ "')";
     numberText := number_text;
     matches := demo_matches;
     decodes := demo_decodes |}.

Definition ada : value :=
  VObj [("email", VStr "ada@example.com");
        ("given_name", VStr "Ada");
        ("family_name", VStr "Lovelace")].

(** An identity provider that accepts the tokens ["tok-1"] and ["tok-2"],
    both issued to [ada] for the demo audience. *)
Definition demo_idp (t : value) (audience : string) : error + value :=
  match t with
  | VStr s =>
      if ((s =? "tok-1") || (s =? "tok-2"))%string && (audience =? "demo.apps.googleusercontent.com")%string
      then inr ada
      else inl {| message := "Invalid token signature"; stack := "Error: Invalid token signature" |}
  | _ => inl {| message := "The verifyIdToken method requires an ID Token";
                stack := "Error: The verifyIdToken method requires an ID Token" |}
  end.

Definition login (t : string) : value := VObj [("token", VStr t)].

Definition ada_account : account :=
  {| account_id := 1; account_email := "ada@example.com";
     account_first_name := VStr "Ada"; account_last_name := VStr "Lovelace";
     account_password := "Default@123" |}.

Definition demo_shop : shop := {| accounts := [ada_account]; next_id := 2 |}.

Definition html_page : response :=
  {| status := 200;
     headers := [("content-type", "text/html; charset=utf-8")];
     data := VStr "<html>Sign in</html>" |}.

Definition no_customers : response :=
  {| status := 200;
     headers := [("content-type", "application/json")];
     data := VObj [("customers", VArr [])] |}.

Definition ada_email : value := VStr "ada@example.com".

(** Answers of the platform: a lookup that finds [ada] before another
    account, a JSON body that reports an error, a session issued to [ada],
    and a GraphQL answer that has errors and no data. *)
Definition json_answer (v : value) : response :=
  {| status := 200;
     headers := [("content-type", "application/json; charset=utf-8")];
     data := v |}.

Definition two_customers : response :=
  json_answer (VObj [("customers",
    VArr [account_json ada_account;
          VObj [("id", VNum 7); ("email", VStr "ada@example.org")]])]).

Definition reported_error : response :=
  json_answer (VObj [("error", VStr "Unavailable Shop");
                     ("customers", VArr [account_json ada_account]);
                     ("customer", account_json ada_account)]).

Definition issued : response := json_answer (session ada_account).

Definition refused_query : response :=
  json_answer (VObj [("errors", VArr [VObj [("message", VStr "Throttled")]])]).

(** Identity providers whose ticket has no payload, or a payload without an
    email. *)
Definition idp_without_payload (t : value) (audience : string) : error + value :=
  inr VUndefined.

Definition idp_without_email (t : value) (audience : string) : error + value :=
  inr (VObj [("given_name", VStr "Ada"); ("family_name", VStr "Lovelace")]).

(** The calls of the demo deployment about [ada]. *)
Definition demo_verify (t : string) : call :=
  Verified (VStr t) "demo.apps.googleusercontent.com".
Definition demo_search : call :=
  Requested (@search_request demo_env demo_runtime ada_email).
Definition demo_create : call :=
  Requested (@create_request demo_env (VStr "Ada") (VStr "Lovelace") ada_email).
Definition demo_reset : call :=
  Requested (@update_request demo_env demo_runtime (VNum 1) (VStr "Default@123")).
Definition demo_mutate : call :=
  Requested (@token_request demo_env ada_email).


(** * Properties *)

(** ** Running programs: the equations of [run] *)

Section Running.
Context {W : Type} (E : world W).

Lemma run_bind {A B : Type} (p : prog A) (f : A -> prog B) (w : W) :
  run E (bind p f) w =
  let '(a, t1, w1) := run E p w in
  let '(b, t2, w2) := run E (f a) w1 in
  (b, (t1 ++ t2)%list, w2).
Proof.
  revert w; induction p as [a | t a k IH | rq k IH]; intros w; simpl.
  - destruct (run E (f a) w) as [[b t2] w2]; reflexivity.
  - destruct (identity E t a w) as [r w1]. rewrite IH.
    destruct (run E (k r) w1) as [[x t1] w2].
    destruct (run E (f x) w2) as [[b t2] w3]; reflexivity.
  - destruct (network E rq w) as [r w1]. rewrite IH.
    destruct (run E (k r) w1) as [[x t1] w2].
    destruct (run E (f x) w2) as [[b t2] w3]; reflexivity.
Qed.

Lemma run_bindM {A B : Type} (m : M A) (f : A -> M B) (w : W) :
  run E (bindM m f) w =
  let '(r, t1, w1) := run E m w in
  match r with
  | inl e => (inl e, t1, w1)
  | inr a => let '(b, t2, w2) := run E (f a) w1 in (b, (t1 ++ t2)%list, w2)
  end.
Proof.
  unfold bindM. rewrite run_bind.
  destruct (run E m w) as [[[e | a] t1] w1]; simpl.
  - rewrite app_nil_r; reflexivity.
  - reflexivity.
Qed.

Lemma run_await {A : Type} (p : prog A) (w : W) :
  run E (await p) w = let '(a, t, w1) := run E p w in (inr a, t, w1).
Proof.
  unfold await. rewrite run_bind.
  destruct (run E p w) as [[a t] w1]; simpl. rewrite app_nil_r; reflexivity.
Qed.

Lemma run_try_catch {A : Type} (m : M A) (h : error -> prog A) (w : W) :
  run E (try_catch m h) w =
  let '(r, t1, w1) := run E m w in
  match r with
  | inl e => let '(a, t2, w2) := run E (h e) w1 in (a, (t1 ++ t2)%list, w2)
  | inr a => (a, t1, w1)
  end.
Proof.
  unfold try_catch. rewrite run_bind.
  destruct (run E m w) as [[[e | a] t1] w1]; simpl.
  - reflexivity.
  - rewrite app_nil_r; reflexivity.
Qed.

Lemma run_pure {A : Type} (r : error + A) (w : W) : run E (pure r) w = (r, [], w).
Proof. reflexivity. Qed.

Lemma run_one {A : Type} (rq : request) (k : wire -> prog A) (w : W) (a : A) :
  k (fst (network E rq w)) = Ret a ->
  run E (Http rq k) w = (a, [Requested rq], snd (network E rq w)).
Proof.
  simpl. destruct (network E rq w) as [r w1]; simpl. intros ->. reflexivity.
Qed.

Lemma run_verifyIdToken t a w :
  run E (verifyIdToken t a) w =
  (fst (identity E t a w), [Verified t a], snd (identity E t a w)).
Proof. simpl. destruct (identity E t a w); reflexivity. Qed.

Lemma run_ret {A} (a : A) w : run E (ret a) w = (inr a, [], w).
Proof. reflexivity. Qed.

Lemma run_throw {A} e w : run E (@throw A e) w = (inl e, [], w).
Proof. reflexivity. Qed.

Lemma run_Ret {A} (a : A) w : run E (Ret a) w = (a, [], w).
Proof. reflexivity. Qed.

End Running.

(** Symbolic execution of [run] along the hypotheses at hand.  [put H]
    rewrites with the equation [H] where its left-hand side occurs as it is
    written, without unfolding anything to find it. *)
Ltac put H :=
  let T := type of H in
  match T with
  | ?x = ?y =>
      let v := fresh "v" in
      let Hv := fresh "Hv" in
      set (v := x);
      assert (Hv : v = y) by exact H;
      clearbody v; subst v
  end.

Ltac run_simpl :=
  repeat (match goal with
          | |- context [run ?E (bindM ?m ?f) ?w] => put (run_bindM E m f w)
          | |- context [run ?E (await ?p) ?w] => put (run_await E p w)
          | |- context [run ?E (try_catch ?m ?h) ?w] => put (run_try_catch E m h w)
          | |- context [run ?E (pure ?r) ?w] => put (run_pure E r w)
          | |- context [run ?E (ret ?a) ?w] => put (run_ret E a w)
          | |- context [run ?E (throw ?e) ?w] => put (run_throw E e w)
          | |- context [run ?E (Ret ?a) ?w] => put (run_Ret E a w)
          | |- context [run ?E (verifyIdToken ?t ?a) ?w] =>
              put (run_verifyIdToken E t a w)
          | H : _ = _ |- _ =>
              lazymatch type of H with
              | ?x = _ => match goal with |- context [x] => progress put H end
              end
          | _ => progress cbn [fst snd negb]
          end;
          cbv beta iota);
  rewrite ?app_nil_r; cbn [app].

(** ** Reading values *)


Lemma eqb_app_cancel (p a b : string) :
  (p ++ a =? p ++ b)%string = (a =? b)%string.
Proof.
  induction p as [| c p IH]; simpl; [reflexivity |].
  rewrite Ascii.eqb_refl. exact IH.
Qed.

Section Reading.
Context {R : Runtime}.

Lemma get_truthy v p : truthy v = true -> get v p = inr (read v p).
Proof. destruct v; simpl; intros H; try discriminate; reflexivity. Qed.


Lemma get_defined v p x q : get v p = inr x -> get v q = inr (read v q).
Proof. destruct v; simpl; intros H; try discriminate; reflexivity. Qed.

End Reading.

(** ** The helpers: one request each, then a returned value *)

Ltac calls_ok :=
  repeat (apply Forall_cons; [first [exact I | assumption] |]); apply Forall_nil.

(** Case analysis down to the returned value. *)
Ltac crush_ret :=
  repeat (cbn;
    match goal with
    | |- context [match ?x with _ => _ end] => destruct x eqn:?
    | |- exists _, Ret ?a = Ret _ => exists a; reflexivity
    end).

Section Helpers.
Context {env : Env} {R : Runtime}.
Context {W : Type} (E : world W).

Lemma settle_fulfilled r r' : settle (Answered r) = inr r' -> r' = r.
Proof.
  unfold settle. destruct ((200 <=? status r) && (status r <? 300)); congruence.
Qed.

Lemma findCustomerByEmail_returns email r :
  exists v, answer_http (findCustomerByEmail email) r = Ret v.
Proof. unfold findCustomerByEmail. crush_ret. Qed.

Lemma updateCustomerPassword_returns id pw r :
  exists v, answer_http (updateCustomerPassword id pw) r = Ret v.
Proof. unfold updateCustomerPassword. crush_ret. Qed.

Lemma createCustomerAccessToken_returns email r :
  exists v, answer_http (createCustomerAccessToken email) r = Ret v.
Proof. unfold createCustomerAccessToken. crush_ret. Qed.

Lemma run_findCustomerByEmail email w :
  exists v, run E (findCustomerByEmail email) w =
            (v, [Requested (search_request email)], snd (network E (search_request email) w)).
Proof.
  destruct (findCustomerByEmail_returns email (fst (network E (search_request email) w))) as [v Hv].
  exists v. apply run_one. exact Hv.
Qed.

Lemma run_updateCustomerPassword id pw w :
  exists v, run E (updateCustomerPassword id pw) w =
            (v, [Requested (update_request id pw)], snd (network E (update_request id pw) w)).
Proof.
  destruct (updateCustomerPassword_returns id pw (fst (network E (update_request id pw) w))) as [v Hv].
  exists v. apply run_one. exact Hv.
Qed.

Lemma run_createCustomerAccessToken email w :
  exists v, run E (createCustomerAccessToken email) w =
            (v, [Requested (token_request email)], snd (network E (token_request email) w)).
Proof.
  destruct (createCustomerAccessToken_returns email (fst (network E (token_request email) w))) as [v Hv].
  exists v. apply run_one. exact Hv.
Qed.

Lemma createCustomer_returns payload email r :
  get payload "email" = inr email ->
  exists v, answer_http (createCustomer payload) r = Ret v.
Proof.
  intros He. unfold createCustomer.
  rewrite (get_defined _ _ _ "given_name" He), (get_defined _ _ _ "family_name" He), He.
  crush_ret.
Qed.

Lemma run_createCustomer payload email w :
  get payload "email" = inr email ->
  let rq := create_request (read payload "given_name") (read payload "family_name") email in
  exists v, run E (createCustomer payload) w = (v, [Requested rq], snd (network E rq w)).
Proof.
  intros He rq.
  destruct (createCustomer_returns payload email (fst (network E rq w)) He) as [v Hv].
  exists v. revert Hv. unfold createCustomer.
  rewrite (get_defined _ _ _ "given_name" He), (get_defined _ _ _ "family_name" He), He.
  intros Hv. apply run_one. exact Hv.
Qed.

End Helpers.

(** ** The handler *)

Section Handler.
Context {env : Env} {R : Runtime}.
Context {W : Type} (E : world W).

Lemma run_auth_google body token w :
  get body "token" = inr token -> truthy token = true ->
  run E (auth_google body) w =
  let '(r, calls, w1) := run E (orchestrate token) w in
  (inr match r with
       | inl e => authentication_failed e
       | inr sent => sent
       end, calls, w1).
Proof.
  intros Hb Ht. unfold auth_google. run_simpl.
  destruct (run E (orchestrate token) w) as [[[e | sent] calls] w1]; run_simpl; reflexivity.
Qed.

(** C2: when [req.body] has no truthy [token] (the field is missing, [null]
    or the empty string), the handler answers 400 with
    [{ success: false, error: "Token is required" }]; the program is a bare
    return, so whatever the world no outbound call is made. *)
Theorem token_is_required body token w :
  get body "token" = inr token -> truthy token = false ->
  let sent := {| code := 400;
                 json := VObj [("success", VBool false); ("error", VStr "Token is required")] |} in
  auth_google body = Ret (inr sent) /\
  run E (auth_google body) w = (inr sent, [], w).
Proof.
  intros Hb Ht sent. assert (H : auth_google body = Ret (inr sent)).
  { unfold auth_google. rewrite Hb. cbn. rewrite Ht. reflexivity. }
  split; [exact H | rewrite H; reflexivity].
Qed.




(** C10: on the existing-account path the [customer] of the 200 reply is
    read from the account the lookup returned; what the credential reset
    returned, [updated], is tested for truthiness and appears nowhere in
    the reply. *)
Theorem reply_uses_the_looked_up_account
    body token payload email found updated customerToken w w1 t2 w2 t3 w3 t4 w4 :
  get body "token" = inr token -> truthy token = true ->
  identity E token GOOGLE_CLIENT_ID w = (inr payload, w1) ->
  get payload "email" = inr email ->
  run E (findCustomerByEmail email) w1 = (found, t2, w2) ->
  truthy found = true ->
  run E (updateCustomerPassword (read found "id") (VStr "Default@123")) w2 = (updated, t3, w3) ->
  truthy updated = true ->
  run E (createCustomerAccessToken email) w3 = (customerToken, t4, w4) ->
  truthy customerToken = true ->
  fst (fst (run E (auth_google body) w)) =
  inr {| code := 200;
         json := VObj [
           ("success", VBool true);
           ("token", customerToken);
           ("redirectUrl", VStr (SHOPIFY_STORE_URL ++ "/account"));
           ("customer", VObj [
              ("id", read found "id");
              ("email", read found "email");
              ("firstName", read found "first_name");
              ("lastName", read found "last_name")])] |}.
Proof.
  intros Hb Ht Hv He Hf Hfd Hu Hup Hk Hkt.
  pose proof (get_truthy found "id" Hfd) as Hid.
  rewrite (run_auth_google _ _ _ Hb Ht). unfold orchestrate.
  run_simpl. rewrite !(get_truthy _ _ Hfd). run_simpl. reflexivity.
Qed.


(** Every run of the orchestration sends expected requests only, and its
    200 reply carries the truthy value the session-token step returned. *)
Lemma orchestrate_outcome token w :
  Forall expected (snd (fst (run E (orchestrate token) w))) /\
  forall sent, fst (fst (run E (orchestrate token) w)) = inr sent ->
    code sent = 200 /\
    exists email w3,
      read (json sent) "token" = fst (fst (run E (createCustomerAccessToken email) w3)) /\
      truthy (read (json sent) "token") = true.
Proof.
  unfold orchestrate.
  destruct (identity E token GOOGLE_CLIENT_ID w) as [[e | payload] w1] eqn:Hv.
  { run_simpl. split; [calls_ok | discriminate]. }
  destruct (get payload "email") as [e | email] eqn:He.
  { run_simpl. split; [calls_ok | discriminate]. }
  destruct (run_findCustomerByEmail E email w1) as [found Hf].
  assert (Xs : expected (Requested (search_request email))) by (left; eauto).
  destruct (truthy found) eqn:Hfd.
  - pose proof (get_truthy found "id" Hfd) as Hid.
    destruct (run_updateCustomerPassword E (read found "id") (VStr "Default@123")
                (snd (network E (search_request email) w1))) as [updated Hu].
    assert (Xu : expected (Requested (update_request (read found "id") (VStr "Default@123"))))
      by (right; right; left; eauto).
    destruct (truthy updated) eqn:Hup.
    + destruct (run_createCustomerAccessToken E email
                  (snd (network E (update_request (read found "id") (VStr "Default@123"))
                          (snd (network E (search_request email) w1))))) as [tok Hk].
      assert (Xk : expected (Requested (token_request email))) by (right; right; right; eauto).
      destruct (truthy tok) eqn:Hkt.
      * run_simpl. rewrite !(get_truthy _ _ Hfd). run_simpl.
        split; [calls_ok |].
        intros sent Hs. injection Hs as <-. split; [reflexivity |].
        eexists email, _. rewrite Hk. cbn. split; [reflexivity | exact Hkt].
      * run_simpl. split; [calls_ok | discriminate].
    + run_simpl. split; [calls_ok | discriminate].
  - destruct (run_createCustomer E payload email
                (snd (network E (search_request email) w1)) He) as [created Hc].
    cbv zeta in Hc.
    assert (Xc : expected (Requested (create_request (read payload "given_name")
                                        (read payload "family_name") email)))
      by (right; left; eauto).
    destruct (truthy created) eqn:Hcr.
    + destruct (run_createCustomerAccessToken E email
                  (snd (network E (create_request (read payload "given_name")
                                     (read payload "family_name") email)
                          (snd (network E (search_request email) w1))))) as [tok Hk].
      assert (Xk : expected (Requested (token_request email))) by (right; right; right; eauto).
      destruct (truthy tok) eqn:Hkt.
      * run_simpl. rewrite !(get_truthy _ _ Hcr). run_simpl.
        split; [calls_ok |].
        intros sent Hs. injection Hs as <-. split; [reflexivity |].
        eexists email, _. rewrite Hk. cbn. split; [reflexivity | exact Hkt].
      * run_simpl. split; [calls_ok | discriminate].
    + run_simpl. split; [calls_ok | discriminate].
Qed.

Lemma auth_google_calls body w :
  Forall expected (snd (fst (run E (auth_google body) w))).
Proof.
  destruct (get body "token") as [e | token] eqn:Hb.
  { unfold auth_google. run_simpl. constructor. }
  destruct (truthy token) eqn:Ht.
  - rewrite (run_auth_google _ _ _ Hb Ht).
    pose proof (orchestrate_outcome token w) as [H _].
    destruct (run E (orchestrate token) w) as [[r calls] w1]. exact H.
  - unfold auth_google. run_simpl. constructor.
Qed.







(** C1, as the code has it: in every run of the endpoint, a request that
    stores a credential stores ["Default@123"], a request that offers one for
    a session token offers ["12$@565mnbvfethiwpldkao"], and the two differ. *)
Theorem stored_and_offered_credentials_differ body w rq1 rq2 :
  In (Requested rq1) (snd (fst (run E (auth_google body) w))) ->
  In (Requested rq2) (snd (fst (run E (auth_google body) w))) ->
  stored_credential rq1 <> VUndefined ->
  offered_credential rq2 <> VUndefined ->
  stored_credential rq1 = VStr "Default@123" /\
  offered_credential rq2 = VStr "12$@565mnbvfethiwpldkao" /\
  stored_credential rq1 <> offered_credential rq2.
Proof.
  intros H1 H2 Hs Ho.
  pose proof (auth_google_calls body w) as Hall.
  rewrite Forall_forall in Hall.
  pose proof (Hall _ H1) as X1. pose proof (Hall _ H2) as X2. cbn in X1, X2.
  assert (S1 : stored_credential rq1 = VStr "Default@123").
  { destruct X1 as [[? ->] | [[? [? [? ->]]] | [[? ->] | [? ->]]]];
      try reflexivity; exfalso; apply Hs; reflexivity. }
  assert (O2 : offered_credential rq2 = VStr "12$@565mnbvfethiwpldkao").
  { destruct X2 as [[? ->] | [[? [? [? ->]]] | [[? ->] | [? ->]]]];
      try reflexivity; exfalso; apply Ho; reflexivity. }
  rewrite S1, O2. repeat split. discriminate.
Qed.

End Handler.

(** ** The account lookup *)

Section Lookup.
Context {env : Env} {R : Runtime}.

Lemma settle_unreachable e : settle (Unreachable e) = inl e.
Proof. reflexivity. Qed.

Lemma settle_bad_status r :
  status r < 200 \/ 300 <= status r ->
  settle (Answered r) =
  inl (Error ("Request failed with status code " ++ decimal (status r))).
Proof.
  intros H. unfold settle.
  destruct (200 <=? status r) eqn:H1; destruct (status r <? 300) eqn:H2;
    try reflexivity; lia.
Qed.

Lemma rejected_lookup email reply e :
  settle reply = inl e ->
  answer_http (findCustomerByEmail email) reply = Ret VNull.
Proof.
  intros H. unfold findCustomerByEmail, axios. cbn. rewrite H. reflexivity.
Qed.

Lemma html_lookup email r ct :
  assoc "content-type" (headers r) = Some ct -> includes "html" ct = true ->
  answer_http (findCustomerByEmail email) (Answered r) = Ret VNull.
Proof.
  intros Hct Hh. unfold findCustomerByEmail, axios. cbn.
  destruct ((200 <=? status r) && (status r <? 300)); cbn; [| reflexivity].
  unfold handleApiResponse. rewrite Hct, Hh. reflexivity.
Qed.

Lemma empty_lookup email r :
  settle (Answered r) = inr r ->
  handleApiResponse r = VObj [("customers", VArr [])] ->
  answer_http (findCustomerByEmail email) (Answered r) = Ret VNull.
Proof.
  intros Hs Hd. unfold findCustomerByEmail, axios.
  cbn [answer_http try_catch bindM bind]. rewrite Hs. cbn [bind]. rewrite Hd. reflexivity.
Qed.

Lemma findCustomerByEmail_waits email :
  exists k, findCustomerByEmail email = Http (search_request email) k.
Proof. eexists. reflexivity. Qed.

Lemma createCustomer_waits payload email :
  get payload "email" = inr email ->
  exists k, createCustomer payload =
            Http (create_request (read payload "given_name")
                                 (read payload "family_name") email) k.
Proof.
  intros He. unfold createCustomer.
  rewrite (get_defined _ _ _ "given_name" He), (get_defined _ _ _ "family_name" He), He.
  eexists. reflexivity.
Qed.

(** Once the token is verified, what the handler does after the lookup is
    a function [K] of what the lookup returned, and for [null] it starts
    with the create-account request. *)
Lemma lookup_decides body token payload email :
  get body "token" = inr token -> truthy token = true ->
  get payload "email" = inr email ->
  exists K : value -> M reply,
    (forall answer found,
       answer_http (findCustomerByEmail email) answer = Ret found ->
       answer_http (answer_verify (auth_google body) (inr payload)) answer = K found) /\
    exists k, K VNull =
              Http (create_request (read payload "given_name")
                                   (read payload "family_name") email) k.
Proof.
  intros Hb Ht He.
  destruct (createCustomer_waits payload email He) as [kc Hc].
  destruct (findCustomerByEmail_waits email) as [kf Hf].
  unfold auth_google, orchestrate, verifyIdToken, bindM, pure, await, try_catch.
  rewrite Hb. cbn [bind]. rewrite Ht. cbn [negb bind answer_verify].
  rewrite He. cbn [bind]. rewrite Hf. cbn [bind answer_http].
  eexists. split.
  - intros answer found Hfound. rewrite Hfound. cbn [bind ret].
    match goal with |- ?lhs = ?K found =>
      let f := eval pattern found in lhs in
      match f with ?g _ => unify K g end
    end.
    reflexivity.
  - cbv beta. cbn [truthy negb]. rewrite Hc. cbn [bind]. eexists. reflexivity.
Qed.

(** C5: an answer to the lookup whose content type contains ["html"] makes
    the lookup return [null], as an answer with an empty customer list
    does; the handler is then left with the same program in both cases, and
    that program starts with the create-account request. *)
Theorem html_lookup_is_no_account body token payload email r ct none :
  get body "token" = inr token -> truthy token = true ->
  get payload "email" = inr email ->
  assoc "content-type" (headers r) = Some ct -> includes "html" ct = true ->
  settle (Answered none) = inr none ->
  handleApiResponse none = VObj [("customers", VArr [])] ->
  let waiting := answer_verify (auth_google body) (inr payload) in
  answer_http (findCustomerByEmail email) (Answered r) = Ret VNull /\
  answer_http (findCustomerByEmail email) (Answered none) = Ret VNull /\
  answer_http waiting (Answered r) = answer_http waiting (Answered none) /\
  exists k,
    answer_http waiting (Answered r) =
    Http (create_request (read payload "given_name") (read payload "family_name") email) k.
Proof.
  intros Hb Ht He Hct Hh Hs Hd waiting.
  pose proof (html_lookup email r ct Hct Hh) as H1.
  pose proof (empty_lookup email none Hs Hd) as H2.
  destruct (lookup_decides body token payload email Hb Ht He) as [K [HK [k Hk]]].
  repeat split; try assumption.
  - unfold waiting. rewrite (HK _ _ H1), (HK _ _ H2). reflexivity.
  - exists k. unfold waiting. rewrite (HK _ _ H1). exact Hk.
Qed.

(** C9: when the lookup request is rejected by axios (no answer from the
    network, or an answer whose status is outside [200, 300)), the lookup
    returns [null] after its one request, and the handler goes on with the
    create-account request. *)
Theorem failed_lookup_is_no_account body token payload email answer e :
  get body "token" = inr token -> truthy token = true ->
  get payload "email" = inr email ->
  settle answer = inl e ->
  answer_http (findCustomerByEmail email) answer = Ret VNull /\
  (forall (W : Type) (E : world W) (w : W),
     fst (network E (search_request email) w) = answer ->
     run E (findCustomerByEmail email) w =
     (VNull, [Requested (search_request email)],
      snd (network E (search_request email) w))) /\
  exists k,
    answer_http (answer_verify (auth_google body) (inr payload)) answer =
    Http (create_request (read payload "given_name") (read payload "family_name") email) k.
Proof.
  intros Hb Ht He Hs.
  pose proof (rejected_lookup email answer e Hs) as H1.
  destruct (lookup_decides body token payload email Hb Ht He) as [K [HK [k Hk]]].
  repeat split; try assumption.
  - intros W E w Hn. apply run_one. rewrite Hn. exact H1.
  - exists k. rewrite (HK _ _ H1). exact Hk.
Qed.

End Lookup.

(** ** Routing *)

Section Routing.
Context {env : Env} {R : Runtime}.


End Routing.

(** ** Two logins in a row, on the reference platform *)

Section Twice.
Context {env : Env} {R : Runtime}.
Variable strict : bool.
Variable idp : value -> string -> error + value.
Variables (e : string) (t1 t2 p1 p2 : value).
Hypothesis valid1 : idp t1 GOOGLE_CLIENT_ID = inr p1.
Hypothesis valid2 : idp t2 GOOGLE_CLIENT_ID = inr p2.
Hypothesis email1 : get p1 "email" = inr (VStr e).
Hypothesis email2 : get p2 "email" = inr (VStr e).
Hypothesis present1 : truthy t1 = true.
Hypothesis present2 : truthy t2 = true.

Let given_name := read p1 "given_name".
Let family_name := read p1 "family_name".

Let E := storefront strict idp.
Let registered : account :=
  {| account_id := 1; account_email := e;
     account_first_name := given_name; account_last_name := family_name;
     account_password := "Default@123" |}.
Let after : shop := {| accounts := [registered]; next_id := 2 |}.

Lemma search_in_empty_shop :
  run E (findCustomerByEmail (VStr e)) empty_shop =
  (VNull, [Requested (search_request (VStr e))], empty_shop).
Proof. reflexivity. Qed.

Lemma create_in_empty_shop :
  platform strict (create_request given_name family_name (VStr e)) empty_shop =
  (answer 201 (VObj [("customer", account_json registered)]), after).
Proof.
  unfold platform. cbn [verb url create_request]. cbn [String.eqb Ascii.eqb Bool.eqb].
  rewrite String.eqb_refl. reflexivity.
Qed.

Lemma search_finds_registered :
  platform strict (search_request (VStr e)) after =
  (answer 200 (VObj [("customers", VArr [account_json registered])]), after).
Proof.
  unfold platform. cbn [verb url search_request]. cbn [String.eqb Ascii.eqb Bool.eqb].
  cbn [accounts after filter registered account_email to_string].
  rewrite String.eqb_refl. reflexivity.
Qed.

Lemma reset_registered :
  platform strict (update_request (VNum 1) (VStr "Default@123")) after =
  (answer 200 (VObj [("customer", account_json registered)]), after).
Proof.
  unfold platform. cbn [verb url update_request]. cbn [String.eqb Ascii.eqb Bool.eqb].
  cbn [accounts after find registered account_id].
  rewrite String.eqb_refl. reflexivity.
Qed.

Lemma mutation_for_registered :
  platform strict (token_request (VStr e)) after =
  (answer 200 (if strict then unidentified else session registered), after).
Proof.
  unfold platform. cbn [verb url token_request create_request].
  cbn [String.eqb Ascii.eqb Bool.eqb].
  rewrite eqb_app_cancel. cbn [String.eqb Ascii.eqb Bool.eqb].
  rewrite String.eqb_refl.
  unfold token_request.
  cbn [body_of payload read get assoc String.eqb Ascii.eqb Bool.eqb].
  cbn [accounts after find registered account_email].
  rewrite String.eqb_refl. unfold credential_ok.
  destruct strict; reflexivity.
Qed.

Lemma create_registers :
  run E (createCustomer p1) empty_shop =
  (account_json registered,
   [Requested (create_request given_name family_name (VStr e))], after).
Proof.
  unfold createCustomer, axios, try_catch, bindM, pure.
  rewrite (get_defined _ _ _ "given_name" email1),
          (get_defined _ _ _ "family_name" email1), email1.
  cbn [bind run E storefront network].
  fold given_name family_name. rewrite create_in_empty_shop. reflexivity.
Qed.

Lemma search_returns_registered :
  run E (findCustomerByEmail (VStr e)) after =
  (account_json registered, [Requested (search_request (VStr e))], after).
Proof.
  unfold findCustomerByEmail, axios, try_catch, bindM, pure.
  cbn [bind run E storefront network].
  rewrite search_finds_registered. reflexivity.
Qed.

Lemma reset_succeeds :
  run E (updateCustomerPassword (VNum 1) (VStr "Default@123")) after =
  (account_json registered,
   [Requested (update_request (VNum 1) (VStr "Default@123"))], after).
Proof.
  unfold updateCustomerPassword, axios, try_catch, bindM, pure.
  cbn [bind run E storefront network].
  rewrite reset_registered. reflexivity.
Qed.

Lemma mutation_result :
  run E (createCustomerAccessToken (VStr e)) after =
  (if strict then VNull else VStr ("session:" ++ e),
   [Requested (token_request (VStr e))], after).
Proof.
  unfold createCustomerAccessToken, axios, try_catch, bindM, pure.
  cbn [bind run E storefront network].
  rewrite mutation_for_registered. destruct strict; reflexivity.
Qed.

(** The reply of the handler when everything succeeds for [registered]. *)
Let welcome : reply :=
  {| code := 200;
     json := VObj [
       ("success", VBool true);
       ("token", VStr ("session:" ++ e));
       ("redirectUrl", VStr (SHOPIFY_STORE_URL ++ "/account"));
       ("customer", VObj [
          ("id", VNum 1);
          ("email", VStr e);
          ("firstName", given_name);
          ("lastName", family_name)])] |}.

Let outcome : reply :=
  if strict
  then authentication_failed (Error "Failed to generate customer access token")
  else welcome.

Lemma first_login :
  run E (auth_google (VObj [("token", t1)])) empty_shop =
  (inr outcome,
   [Verified t1 GOOGLE_CLIENT_ID;
    Requested (search_request (VStr e));
    Requested (create_request given_name family_name (VStr e));
    Requested (token_request (VStr e))],
   after).
Proof.
  assert (Hv : identity E t1 GOOGLE_CLIENT_ID empty_shop = (inr p1, empty_shop)).
  { cbn. rewrite valid1. reflexivity. }
  pose proof search_in_empty_shop as Hs.
  pose proof create_registers as Hc.
  pose proof mutation_result as Hm.
  assert (N : truthy VNull = false) by reflexivity.
  assert (C : truthy (account_json registered) = true) by reflexivity.
  assert (S : truthy (VStr ("session:" ++ e)) = true) by reflexivity.
  rewrite (run_auth_google E (VObj [("token", t1)]) t1 _ eq_refl present1).
  unfold orchestrate, outcome.
  destruct strict; run_simpl; [reflexivity |].
  rewrite !(get_truthy _ _ C). run_simpl. reflexivity.
Qed.

Lemma second_login :
  run E (auth_google (VObj [("token", t2)])) after =
  (inr outcome,
   [Verified t2 GOOGLE_CLIENT_ID;
    Requested (search_request (VStr e));
    Requested (update_request (VNum 1) (VStr "Default@123"));
    Requested (token_request (VStr e))],
   after).
Proof.
  assert (Hv : identity E t2 GOOGLE_CLIENT_ID after = (inr p2, after)).
  { cbn. rewrite valid2. reflexivity. }
  pose proof search_returns_registered as Hs.
  pose proof reset_succeeds as Hr.
  pose proof mutation_result as Hm.
  assert (N : truthy VNull = false) by reflexivity.
  assert (C : truthy (account_json registered) = true) by reflexivity.
  assert (I : get (account_json registered) "id" = inr (VNum 1)) by reflexivity.
  assert (S : truthy (VStr ("session:" ++ e)) = true) by reflexivity.
  rewrite (run_auth_google E (VObj [("token", t2)]) t2 _ eq_refl present2).
  unfold orchestrate, outcome.
  destruct strict; run_simpl; [reflexivity |].
  rewrite !(get_truthy _ _ C). run_simpl. reflexivity.
Qed.

End Twice.

Section TwoLogins.
Context {env : Env} {R : Runtime}.
Variable idp : value -> string -> error + value.
Variables (e : string) (t1 t2 p1 p2 : value).

(** C7, where the platform compares credentials: both logins are answered
    500, because the session mutation offers a credential that is not the
    one create-account and credential-reset store; the second login does
    find the account the first one created and resets its credential. *)
Theorem two_logins_fail_when_credentials_are_checked :
  idp t1 GOOGLE_CLIENT_ID = inr p1 -> idp t2 GOOGLE_CLIENT_ID = inr p2 ->
  get p1 "email" = inr (VStr e) -> get p2 "email" = inr (VStr e) ->
  truthy t1 = true -> truthy t2 = true ->
  let E := storefront true idp in
  let first := run E (auth_google (VObj [("token", t1)])) empty_shop in
  let second := run E (auth_google (VObj [("token", t2)])) (snd first) in
  let failed :=
    authentication_failed (Error "Failed to generate customer access token") in
  fst (fst first) = inr failed /\
  fst (fst second) = inr failed /\
  snd (fst second) =
    [Verified t2 GOOGLE_CLIENT_ID;
     Requested (search_request (VStr e));
     Requested (update_request (VNum 1) (VStr "Default@123"));
     Requested (token_request (VStr e))].
Proof.
  intros V1 V2 E1 E2 T1 T2 E first second failed.
  unfold second, first, E.
  rewrite (first_login true idp e t1 p1 V1 E1 T1). cbn [fst snd].
  rewrite (second_login true idp e t2 p1 p2 V2 E2 T2).
  repeat split.
Qed.

(** The same two logins where the platform issues a session token whatever
    the credential offered: both are answered 200 with a token, the second
    through the credential reset. *)
Lemma two_logins_succeed_when_credentials_are_not_checked :
  idp t1 GOOGLE_CLIENT_ID = inr p1 -> idp t2 GOOGLE_CLIENT_ID = inr p2 ->
  get p1 "email" = inr (VStr e) -> get p2 "email" = inr (VStr e) ->
  truthy t1 = true -> truthy t2 = true ->
  let E := storefront false idp in
  let first := run E (auth_google (VObj [("token", t1)])) empty_shop in
  let second := run E (auth_google (VObj [("token", t2)])) (snd first) in
  (exists sent, fst (fst first) = inr sent /\ code sent = 200 /\
                read (json sent) "token" = VStr ("session:" ++ e)) /\
  (exists sent, fst (fst second) = inr sent /\ code sent = 200 /\
                read (json sent) "token" = VStr ("session:" ++ e)) /\
  snd (fst second) =
    [Verified t2 GOOGLE_CLIENT_ID;
     Requested (search_request (VStr e));
     Requested (update_request (VNum 1) (VStr "Default@123"));
     Requested (token_request (VStr e))].
Proof.
  intros V1 V2 E1 E2 T1 T2 E first second.
  unfold second, first, E.
  rewrite (first_login false idp e t1 p1 V1 E1 T1). cbn [fst snd].
  rewrite (second_login false idp e t2 p1 p2 V2 E2 T2).
  repeat split; eexists; repeat split.
Qed.

End TwoLogins.

(** * Further properties of the code *)

(** ** The helpers *)

Section HelperResults.
Context {env : Env} {R : Runtime}.



(** X2: only the first entry of [customers] is looked at: it is returned when
    it is truthy, and the lookup returns [null] when it is not, whatever
    follows it in the list. *)
Theorem lookup_returns_the_first_customer email r err c rest :
  settle (Answered r) = inr r ->
  get (handleApiResponse r) "error" = inr err -> truthy err = false ->
  get (handleApiResponse r) "customers" = inr (VArr (c :: rest)) ->
  answer_http (findCustomerByEmail email) (Answered r) =
  Ret (if truthy c then c else VNull).
Proof.
  intros Hs He Hf Hc. unfold findCustomerByEmail, axios, try_catch, bindM, pure.
  cbn [answer_http bind]. rewrite Hs. cbn [bind]. rewrite He. cbn [bind].
  rewrite Hf. rewrite Hc. reflexivity.
Qed.

(** X3: an answer without customers is "not found": the key is missing or
    [null] (the optional chaining of line 59), or the list is empty. *)
Theorem lookup_without_customers_finds_nothing email r err customers :
  settle (Answered r) = inr r ->
  get (handleApiResponse r) "error" = inr err -> truthy err = false ->
  get (handleApiResponse r) "customers" = inr customers ->
  nullish customers = true \/ customers = VArr [] ->
  answer_http (findCustomerByEmail email) (Answered r) = Ret VNull.
Proof.
  intros Hs He Hf Hc Hn. unfold findCustomerByEmail, axios, try_catch, bindM, pure.
  cbn [answer_http bind]. rewrite Hs. cbn [bind]. rewrite He. cbn [bind].
  rewrite Hf. rewrite Hc.
  destruct Hn as [Hn | ->]; [destruct customers; try discriminate Hn |]; reflexivity.
Qed.

(** X4: any answer whose body has a truthy [error] property, be it the one
    [handleApiResponse] makes up for an HTML page or one the platform sent
    in its JSON, makes each of the four helpers return [null], whatever
    else the body holds. *)
Theorem error_property_means_failure r err :
  get (handleApiResponse r) "error" = inr err -> truthy err = true ->
  (forall email, answer_http (findCustomerByEmail email) (Answered r) = Ret VNull) /\
  (forall payload, answer_http (createCustomer payload) (Answered r) = Ret VNull) /\
  (forall id pw, answer_http (updateCustomerPassword id pw) (Answered r) = Ret VNull) /\
  (forall email, answer_http (createCustomerAccessToken email) (Answered r) = Ret VNull).
Proof.
  intros He Ht. repeat split.
  - intros email. unfold findCustomerByEmail, axios, try_catch, bindM, pure.
    cbn [answer_http bind].
    destruct (settle (Answered r)) as [e | r'] eqn:Hs; [reflexivity |].
    apply settle_fulfilled in Hs as ->.
    cbn [bind]. rewrite He. cbn [bind]. rewrite Ht. reflexivity.
  - intros payload. unfold createCustomer, axios, try_catch, bindM, pure.
    destruct (get payload "given_name") as [e | gn]; [reflexivity |].
    destruct (get payload "family_name") as [e | fn]; [reflexivity |].
    destruct (get payload "email") as [e | em]; [reflexivity |].
    cbn [answer_http bind].
    destruct (settle (Answered r)) as [e | r'] eqn:Hs; [reflexivity |].
    apply settle_fulfilled in Hs as ->.
    cbn [bind]. rewrite He. cbn [bind]. rewrite Ht. reflexivity.
  - intros id pw. unfold updateCustomerPassword, axios, try_catch, bindM, pure.
    cbn [answer_http bind].
    destruct (settle (Answered r)) as [e | r'] eqn:Hs; [reflexivity |].
    apply settle_fulfilled in Hs as ->.
    cbn [bind]. rewrite He. cbn [bind]. rewrite Ht. reflexivity.
  - intros email. unfold createCustomerAccessToken, axios, try_catch, bindM, pure.
    cbn [answer_http bind].
    destruct (settle (Answered r)) as [e | r'] eqn:Hs; [reflexivity |].
    apply settle_fulfilled in Hs as ->.
    cbn [bind]. rewrite He. cbn [bind]. rewrite Ht. reflexivity.
Qed.

(** X5: [createCustomer] sends its request exactly when it has a payload to
    read the names from: for [null] and [undefined] the read of line 71
    throws inside the [try], nothing is sent and [null] is returned; for
    any other payload one POST goes out, whatever the claims it lacks. *)
Theorem createCustomer_needs_a_payload {W : Type} (E : world W) payload w :
  (nullish payload = true ->
   run E (createCustomer payload) w = (VNull, [], w)) /\
  (nullish payload = false ->
   exists v,
     run E (createCustomer payload) w =
     (v,
      [Requested (create_request (read payload "given_name")
                                 (read payload "family_name")
                                 (read payload "email"))],
      snd (network E (create_request (read payload "given_name")
                                     (read payload "family_name")
                                     (read payload "email")) w))).
Proof.
  split; intros H.
  - destruct payload; try discriminate H; reflexivity.
  - assert (He : get payload "email" = inr (read payload "email")).
    { destruct payload; try discriminate H; reflexivity. }
    exact (run_createCustomer E payload (read payload "email") w He).
Qed.

(** X6: the answer the mutation document asks for, without user errors and
    without an [error] property beside [data]: the function returns its
    [accessToken]. *)
Theorem access_token_is_returned email r t more others :
  settle (Answered r) = inr r ->
  handleApiResponse r =
    VObj (("data", VObj [("customerAccessTokenCreate", VObj [
      ("customerAccessToken", VObj (("accessToken", t) :: more));
      ("userErrors", VArr [])])]) :: others) ->
  assoc "error" others = None ->
  answer_http (createCustomerAccessToken email) (Answered r) = Ret t.
Proof.
  intros Hs Hd Ho. unfold createCustomerAccessToken, axios, try_catch, bindM, pure.
  cbn [answer_http bind]. rewrite Hs. cbn [bind]. rewrite Hd.
  cbn [get assoc String.eqb Ascii.eqb Bool.eqb]. rewrite Ho. reflexivity.
Qed.

(** X7: an answer that lacks part of what the mutation document asks for (no
    [data], as when GraphQL rejects the request as a whole, or a [null]
    [customerAccessTokenCreate], [userErrors] or [customerAccessToken])
    makes the function return [null]: the [TypeError] of the read is caught
    at line 149. *)
Theorem incomplete_mutation_answer_is_no_token email r :
  let content := handleApiResponse r in
  let tokenData := read (read content "data") "customerAccessTokenCreate" in
  nullish (read content "data") = true \/
  nullish tokenData = true \/
  nullish (read tokenData "userErrors") = true \/
  nullish (read tokenData "customerAccessToken") = true ->
  answer_http (createCustomerAccessToken email) (Answered r) = Ret VNull.
Proof.
  intros content tokenData H.
  unfold createCustomerAccessToken, axios, try_catch, bindM, pure.
  cbn [answer_http bind].
  destruct (settle (Answered r)) as [e | r'] eqn:Hs; [reflexivity |].
  apply settle_fulfilled in Hs as ->. cbn [bind]. fold content.
  destruct (get content "error") as [e | err] eqn:Herr; [reflexivity |].
  cbn [bind]. destruct (truthy err); [reflexivity |].
  destruct (get content "data") as [e | inner] eqn:H1; [reflexivity |].
  cbn [bind].
  assert (R1 : read content "data" = inner) by (unfold read; rewrite H1; reflexivity).
  destruct (get inner "customerAccessTokenCreate") as [e | td] eqn:H2; [reflexivity |].
  cbn [bind].
  assert (R2 : tokenData = td).
  { unfold tokenData. rewrite R1. unfold read. rewrite H2. reflexivity. }
  destruct (get td "userErrors") as [e | ue] eqn:H3; [reflexivity |].
  cbn [bind].
  assert (R3 : read td "userErrors" = ue).
  { unfold read. rewrite H3. reflexivity. }
  destruct (get ue "length") as [e | len] eqn:H4; [reflexivity |].
  cbn [bind]. destruct (truthy len); [reflexivity |].
  destruct (get td "customerAccessToken") as [e | cat] eqn:H5; [reflexivity |].
  cbn [bind].
  assert (R4 : read td "customerAccessToken" = cat).
  { unfold read. rewrite H5. reflexivity. }
  destruct (get cat "accessToken") as [e | tok] eqn:H6; [reflexivity |].
  exfalso. rewrite R1, R2, R3, R4 in H.
  destruct H as [H | [H | [H | H]]].
  - destruct inner; try discriminate H; discriminate H2.
  - destruct td; try discriminate H; discriminate H3.
  - destruct ue; try discriminate H; discriminate H4.
  - destruct cat; try discriminate H; discriminate H6.
Qed.

(** [hay.includes(needle)] holds exactly when [needle] is a substring. *)
Lemma prefix_spec s1 s2 :
  String.prefix s1 s2 = true <-> exists post, s2 = s1 ++ post.
Proof.
  revert s1; induction s2 as [| d s2 IH]; intros [| c s1]; simpl.
  - split; [intros _; exists ""; reflexivity | reflexivity].
  - split; [discriminate | intros [post H]; discriminate H].
  - split; [intros _; exists (String d s2); reflexivity | reflexivity].
  - destruct (Ascii.ascii_dec c d) as [Hcd | Hcd].
    + rewrite IH. split; intros [post H]; exists post.
      * rewrite H, Hcd; reflexivity.
      * now injection H.
    + split; [discriminate | intros [post H]; injection H as H1 H2; congruence].
Qed.

Lemma includes_spec needle hay :
  includes needle hay = true <-> exists pre post, hay = pre ++ needle ++ post.
Proof.
  induction hay as [| c hay IH]; cbn [includes].
  - rewrite orb_false_r, prefix_spec. split.
    + intros [post H]. exists "", post. exact H.
    + intros [pre [post H]]. destruct pre; [exists post; exact H | discriminate H].
  - rewrite orb_true_iff, prefix_spec, IH. split.
    + intros [[post H] | [pre [post H]]].
      * exists "", post. exact H.
      * exists (String c pre), post. simpl. rewrite H. reflexivity.
    + intros [pre [post H]]. destruct pre as [| d pre]; simpl in H.
      * left. exists post. exact H.
      * right. injection H as _ H. exists pre, post. exact H.
Qed.

(** X8: [handleApiResponse] replaces the body by its error object exactly when
    the [content-type] header has ["html"], in lower case, somewhere in its
    value; otherwise, and whatever the status, the body passes through
    unchanged. *)
Theorem html_answers_are_replaced r :
  ((exists pre post, assoc "content-type" (headers r) = Some (pre ++ "html" ++ post)) ->
   handleApiResponse r =
   VObj [("error", VStr "Expected JSON, received HTML. Likely a wrong endpoint or failed auth.")]) /\
  (~ (exists pre post, assoc "content-type" (headers r) = Some (pre ++ "html" ++ post)) ->
   handleApiResponse r = data r).
Proof.
  unfold handleApiResponse. split.
  - intros [pre [post H]]. rewrite H.
    assert (Hi : includes "html" (pre ++ "html" ++ post) = true)
      by (apply includes_spec; eauto).
    rewrite Hi. reflexivity.
  - intros H. destruct (assoc "content-type" (headers r)) as [ct |]; [| reflexivity].
    destruct (includes "html" ct) eqn:Hi; [| reflexivity].
    exfalso. apply H. apply includes_spec in Hi as [pre [post ->]]. eauto.
Qed.

End HelperResults.

(** ** The handler *)

Section HandlerShape.
Context {env : Env} {R : Runtime}.
Context {W : Type} (E : world W).

Lemma orchestrate_chain token w :
  let calls := snd (fst (run E (orchestrate token) w)) in
  let verify := Verified token GOOGLE_CLIENT_ID in
  (calls = [verify] /\
   ((exists e, fst (identity E token GOOGLE_CLIENT_ID w) = inl e) \/
    (exists payload e, fst (identity E token GOOGLE_CLIENT_ID w) = inr payload /\
                       get payload "email" = inl e))) \/
  exists payload email p,
    fst (identity E token GOOGLE_CLIENT_ID w) = inr payload /\
    get payload "email" = inr email /\
    provisioning p /\
    (calls = [verify; Requested (search_request email); Requested p] \/
     calls = [verify; Requested (search_request email); Requested p;
              Requested (token_request email)]).
Proof.
  intros calls verify. unfold calls, orchestrate.
  destruct (identity E token GOOGLE_CLIENT_ID w) as [[e | payload] w1] eqn:Hv.
  { run_simpl. left. split; [reflexivity | left; eauto]. }
  destruct (get payload "email") as [e | email] eqn:He.
  { run_simpl. left. split; [reflexivity | right; eauto]. }
  right. exists payload, email.
  destruct (run_findCustomerByEmail E email w1) as [found Hf].
  destruct (truthy found) eqn:Hfd.
  - pose proof (get_truthy found "id" Hfd) as Hid.
    exists (update_request (read found "id") (VStr "Default@123")).
    split; [reflexivity |]. split; [exact He |]. split; [right; eauto |].
    destruct (run_updateCustomerPassword E (read found "id") (VStr "Default@123")
                (snd (network E (search_request email) w1))) as [updated Hu].
    destruct (truthy updated) eqn:Hup.
    + destruct (run_createCustomerAccessToken E email
                  (snd (network E (update_request (read found "id") (VStr "Default@123"))
                          (snd (network E (search_request email) w1))))) as [tok Hk].
      right. destruct (truthy tok) eqn:Hkt; run_simpl.
      * rewrite !(get_truthy _ _ Hfd). run_simpl. reflexivity.
      * reflexivity.
    + left. run_simpl. reflexivity.
  - destruct (run_createCustomer E payload email
                (snd (network E (search_request email) w1)) He) as [created Hc].
    cbv zeta in Hc.
    exists (create_request (read payload "given_name") (read payload "family_name") email).
    split; [reflexivity |]. split; [exact He |]. split; [left; eauto |].
    destruct (truthy created) eqn:Hcr.
    + destruct (run_createCustomerAccessToken E email
                  (snd (network E (create_request (read payload "given_name")
                                     (read payload "family_name") email)
                          (snd (network E (search_request email) w1))))) as [tok Hk].
      right. destruct (truthy tok) eqn:Hkt; run_simpl.
      * rewrite !(get_truthy _ _ Hcr). run_simpl. reflexivity.
      * reflexivity.
    + left. run_simpl. reflexivity.
Qed.


(** X10: the admin access token goes to the admin API only: in every run, the
    session mutation carries the storefront token and its content type and
    no admin header, and every other request carries the admin token and
    nothing else. *)
Theorem admin_token_stays_with_the_admin_api body w rq :
  In (Requested rq) (snd (fst (run E (auth_google body) w))) ->
  (is_session_mutation rq = true /\
   sent rq = [("X-Shopify-Storefront-Access-Token", SHOPIFY_STOREFRONT_ACCESS_TOKEN);
              ("Content-Type", "application/json")]) \/
  (is_session_mutation rq = false /\
   sent rq = [("X-Shopify-Access-Token", SHOPIFY_ACCESS_TOKEN)]).
Proof.
  intros Hin. pose proof (auth_google_calls E body w) as Hall.
  rewrite Forall_forall in Hall. specialize (Hall _ Hin). cbn in Hall.
  destruct Hall as [[? ->] | [[? [? [? ->]]] | [[? ->] | [? ->]]]].
  - right. split; reflexivity.
  - right. split; [| reflexivity].
    unfold is_session_mutation, create_request; cbn [verb url].
    rewrite eqb_app_cancel. reflexivity.
  - right. split; reflexivity.
  - left. split; [| reflexivity].
    unfold is_session_mutation, token_request; cbn [verb url].
    rewrite !String.eqb_refl. reflexivity.
Qed.

(** X11: every request of every run confirms the password it sets:
    [password_confirmation] is the credential stored (both are absent from
    the requests that write none). *)
Theorem confirmation_is_the_password body w rq :
  In (Requested rq) (snd (fst (run E (auth_google body) w))) ->
  read (read (body_of rq) "customer") "password_confirmation" = stored_credential rq.
Proof.
  intros Hin. pose proof (auth_google_calls E body w) as Hall.
  rewrite Forall_forall in Hall. specialize (Hall _ Hin). cbn in Hall.
  destruct Hall as [[? ->] | [[? [? [? ->]]] | [[? ->] | [? ->]]]]; reflexivity.
Qed.

(** The 200 reply: the truthy token the mutation returned, the account page
    of the store as redirect URL, and four fields of a truthy account. *)
Lemma orchestrate_reply token w sent :
  fst (fst (run E (orchestrate token) w)) = inr sent ->
  exists customerToken customer,
    truthy customerToken = true /\ truthy customer = true /\
    sent = {| code := 200;
              json := VObj [
                ("success", VBool true);
                ("token", customerToken);
                ("redirectUrl", VStr (SHOPIFY_STORE_URL ++ "/account"));
                ("customer", VObj [
                   ("id", read customer "id");
                   ("email", read customer "email");
                   ("firstName", read customer "first_name");
                   ("lastName", read customer "last_name")])] |}.
Proof.
  unfold orchestrate.
  destruct (identity E token GOOGLE_CLIENT_ID w) as [[e | payload] w1] eqn:Hv.
  { run_simpl. discriminate. }
  destruct (get payload "email") as [e | email] eqn:He.
  { run_simpl. discriminate. }
  destruct (run_findCustomerByEmail E email w1) as [found Hf].
  destruct (truthy found) eqn:Hfd.
  - pose proof (get_truthy found "id" Hfd) as Hid.
    destruct (run_updateCustomerPassword E (read found "id") (VStr "Default@123")
                (snd (network E (search_request email) w1))) as [updated Hu].
    destruct (truthy updated) eqn:Hup; [| run_simpl; discriminate].
    destruct (run_createCustomerAccessToken E email
                (snd (network E (update_request (read found "id") (VStr "Default@123"))
                        (snd (network E (search_request email) w1))))) as [tok Hk].
    destruct (truthy tok) eqn:Hkt; [| run_simpl; discriminate].
    run_simpl. rewrite !(get_truthy _ _ Hfd). run_simpl.
    intros [= <-]. exists tok, found. auto.
  - destruct (run_createCustomer E payload email
                (snd (network E (search_request email) w1)) He) as [created Hc].
    cbv zeta in Hc.
    destruct (truthy created) eqn:Hcr; [| run_simpl; discriminate].
    destruct (run_createCustomerAccessToken E email
                (snd (network E (create_request (read payload "given_name")
                                   (read payload "family_name") email)
                        (snd (network E (search_request email) w1))))) as [tok Hk].
    destruct (truthy tok) eqn:Hkt; [| run_simpl; discriminate].
    run_simpl. rewrite !(get_truthy _ _ Hcr). run_simpl.
    intros [= <-]. exists tok, created. auto.
Qed.

(** X12: a request with a body to read the token from is always answered, and
    the answer has one of three shapes: the 400 for a missing token, the 500
    of the [catch], or the 200 with [success], a truthy [token], the
    account page of the store as [redirectUrl] and the four [customer]
    fields.  Only a [null] or [undefined] body makes the handler throw
    before its [try], without any call. *)
Theorem the_handler_answers body w :
  (nullish body = false ->
   exists sent,
     fst (fst (run E (auth_google body) w)) = inr sent /\
     (sent = {| code := 400;
                json := VObj [("success", VBool false);
                              ("error", VStr "Token is required")] |} \/
      (exists e, sent = authentication_failed e) \/
      (exists customerToken customer,
         truthy customerToken = true /\ truthy customer = true /\
         sent = {| code := 200;
                   json := VObj [
                     ("success", VBool true);
                     ("token", customerToken);
                     ("redirectUrl", VStr (SHOPIFY_STORE_URL ++ "/account"));
                     ("customer", VObj [
                        ("id", read customer "id");
                        ("email", read customer "email");
                        ("firstName", read customer "first_name");
                        ("lastName", read customer "last_name")])] |}))) /\
  (nullish body = true ->
   run E (auth_google body) w = (inl (Error (cannotRead body "token")), [], w)).
Proof.
  split; intros Hn.
  - assert (Hb : get body "token" = inr (read body "token")).
    { destruct body; try discriminate Hn; reflexivity. }
    destruct (truthy (read body "token")) eqn:Ht.
    + rewrite (run_auth_google _ _ _ _ Hb Ht).
      pose proof (orchestrate_reply (read body "token") w) as H.
      destruct (run E (orchestrate (read body "token")) w) as [[[e | sent] c] w1];
        cbn [fst snd] in *.
      * eexists. split; [reflexivity |]. right. left. eauto.
      * eexists. split; [reflexivity |]. right. right. apply (H sent eq_refl).
    + unfold auth_google. run_simpl. eexists. split; [reflexivity |].
      left. reflexivity.
  - destruct body; try discriminate Hn; reflexivity.
Qed.

(** X13: a ticket without a payload ([getPayload()] returns [undefined]) is
    answered 500 with the message of the [TypeError] as [details], and no
    request reaches the platform. *)
Theorem missing_payload_is_a_500 body token payload w w1 :
  get body "token" = inr token -> truthy token = true ->
  identity E token GOOGLE_CLIENT_ID w = (inr payload, w1) ->
  nullish payload = true ->
  run E (auth_google body) w =
  (inr (authentication_failed (Error (cannotRead payload "email"))),
   [Verified token GOOGLE_CLIENT_ID], w1).
Proof.
  intros Hb Ht Hv Hn.
  assert (He : get payload "email" = inl (Error (cannotRead payload "email"))).
  { destruct payload; try discriminate Hn; reflexivity. }
  rewrite (run_auth_google _ _ _ _ Hb Ht). unfold orchestrate.
  run_simpl. reflexivity.
Qed.

(** X14: the email claim is not validated: when the verified payload has no
    [email], the handler still goes on, and looks up the text
    ["undefined"]. *)
Theorem missing_email_is_looked_up_as_undefined body token payload w w1 :
  get body "token" = inr token -> truthy token = true ->
  identity E token GOOGLE_CLIENT_ID w = (inr payload, w1) ->
  get payload "email" = inr VUndefined ->
  (exists rest,
     snd (fst (run E (auth_google body) w)) =
     Verified token GOOGLE_CLIENT_ID :: Requested (search_request VUndefined) :: rest) /\
  url (search_request VUndefined) =
    SHOPIFY_STORE_URL ++ "/admin/api/2023-10/customers/search.json?query=email:undefined".
Proof.
  intros Hb Ht Hv He. split; [| reflexivity].
  rewrite (run_auth_google _ _ _ _ Hb Ht).
  destruct (orchestrate_chain token w)
    as [[_ [[e H] | [p' [e [Hp H]]]]] | [payload' [email [p [Hp [He' [_ H]]]]]]];
    destruct (run E (orchestrate token) w) as [[r c] w2] eqn:Hrun; cbn [fst snd] in *.
  - rewrite Hv in H. discriminate H.
  - rewrite Hv in Hp. cbn in Hp. injection Hp as <-. rewrite He in H. discriminate H.
  - rewrite Hv in Hp. cbn in Hp. injection Hp as <-.
    rewrite He in He'. injection He' as <-.
    destruct H as [-> | ->]; eexists; reflexivity.
Qed.

End HandlerShape.

(** ** The requests *)

Lemma length_append (a b : string) :
  String.length (a ++ b) = (String.length a + String.length b)%nat.
Proof. induction a as [| c a IH]; simpl; [reflexivity | now rewrite IH]. Qed.

Lemma append_inv_head (p a b : string) : p ++ a = p ++ b -> a = b.
Proof.
  intros H. apply String.eqb_eq. rewrite <- (eqb_app_cancel p).
  apply String.eqb_eq. exact H.
Qed.

Lemma append_inv_tail (a b s : string) : a ++ s = b ++ s -> a = b.
Proof.
  revert b; induction a as [| c a IH]; intros [| d b] H; simpl in H.
  - reflexivity.
  - apply (f_equal String.length) in H. simpl in H. rewrite length_append in H. lia.
  - apply (f_equal String.length) in H. simpl in H. rewrite length_append in H. lia.
  - injection H as -> H. f_equal. apply IH. exact H.
Qed.

Lemma decimal_inj (a b : Z) : decimal a = decimal b -> a = b.
Proof.
  unfold decimal. intros H.
  assert (N : forall z, Z.to_int z <> Decimal.Pos Decimal.Nil /\
                        Z.to_int z <> Decimal.Neg Decimal.Nil).
  { intros [| p | p]; simpl; split; try discriminate;
      intros [= Hp]; exact (DecimalPos.Unsigned.to_uint_nonnil p Hp). }
  apply (f_equal NilZero.int_of_string) in H.
  rewrite !NilZero.isi in H by apply N.
  injection H as H. apply DecimalZ.to_int_inj. exact H.
Qed.

Section Requests.
Context {env : Env} {R : Runtime}.

(** X15: the URL of a request says which account it is about: lookups of
    different email strings, and resets of different ids that are safe
    integers, go to different URLs.  The email is put into the URL as it
    is.  (Beyond the safe integers two ids can be one double, and then one
    URL.) *)
Theorem urls_identify_their_target :
  (forall e1 e2 : string,
     url (search_request (VStr e1)) = url (search_request (VStr e2)) -> e1 = e2) /\
  (forall (a b : Z) (pw pw' : value),
     safe a = true -> safe b = true ->
     url (update_request (VNum a) pw) = url (update_request (VNum b) pw') -> a = b) /\
  (forall e : string,
     url (search_request (VStr e)) =
     SHOPIFY_STORE_URL ++ "/admin/api/2023-10/customers/search.json?query=email:" ++ e).
Proof.
  repeat split.
  - intros e1 e2 H. cbn [url search_request to_string] in H.
    apply append_inv_head in H. apply append_inv_head in H. exact H.
  - intros a b pw pw' Ha Hb H. cbn [url update_request to_string] in H.
    rewrite Ha, Hb in H.
    apply append_inv_head in H. apply append_inv_head in H.
    apply append_inv_tail in H. apply decimal_inj. exact H.
Qed.

End Requests.

(** ** Start-up and routing *)

(** X16: the process serves only when the four variables are set and none is
    empty, with exactly their values; otherwise it exits with status 1. *)
Theorem startup_needs_the_four_variables pe :
  (forall env, startup pe = inr env ->
     env_SHOPIFY_STORE_URL pe = Some SHOPIFY_STORE_URL /\
     env_SHOPIFY_ACCESS_TOKEN pe = Some SHOPIFY_ACCESS_TOKEN /\
     env_SHOPIFY_STOREFRONT_ACCESS_TOKEN pe = Some SHOPIFY_STOREFRONT_ACCESS_TOKEN /\
     env_GOOGLE_CLIENT_ID pe = Some GOOGLE_CLIENT_ID /\
     SHOPIFY_STORE_URL <> "" /\ SHOPIFY_ACCESS_TOKEN <> "" /\
     SHOPIFY_STOREFRONT_ACCESS_TOKEN <> "" /\ GOOGLE_CLIENT_ID <> "") /\
  ((exists env, startup pe = inr env) \/ startup pe = inl 1) /\
  (truthy (variable (env_SHOPIFY_STORE_URL pe)) = false \/
   truthy (variable (env_SHOPIFY_ACCESS_TOKEN pe)) = false \/
   truthy (variable (env_SHOPIFY_STOREFRONT_ACCESS_TOKEN pe)) = false \/
   truthy (variable (env_GOOGLE_CLIENT_ID pe)) = false ->
   startup pe = inl 1).
Proof.
  unfold startup.
  destruct (env_SHOPIFY_STORE_URL pe) as [a |], (env_SHOPIFY_ACCESS_TOKEN pe) as [b |],
           (env_SHOPIFY_STOREFRONT_ACCESS_TOKEN pe) as [c |],
           (env_GOOGLE_CLIENT_ID pe) as [d |]; cbn [variable truthy];
    try (split; [intros env H; discriminate H |
                 split; [right; reflexivity | intros _; reflexivity]]).
  destruct (String.eqb_spec a ""), (String.eqb_spec b ""),
           (String.eqb_spec c ""), (String.eqb_spec d ""); cbn [negb orb];
    try (split; [intros env H; discriminate H |
                 split; [right; reflexivity | intros _; reflexivity]]).
  split; [| split].
  - intros env H. injection H as <-. cbn. repeat split; assumption.
  - left. eexists. reflexivity.
  - intros [H | [H | [H | H]]]; discriminate H.
Qed.

(** X17: the port is never empty: [PORT] is the variable when it is set to a
    non-empty text, and 3000 otherwise. *)
Theorem port_defaults_to_3000 pe :
  truthy (PORT pe) = true /\
  (PORT pe = VNum 3000 \/ exists s, env_PORT pe = Some s /\ s <> "" /\ PORT pe = VStr s) /\
  (env_PORT pe = None \/ env_PORT pe = Some "" -> PORT pe = VNum 3000).
Proof.
  unfold PORT, or_else. destruct (env_PORT pe) as [s |]; cbn [variable truthy].
  - destruct (String.eqb_spec s "") as [-> | Hs]; cbn [negb].
    + repeat split; auto.
    + split; [| split].
      * cbn. destruct (String.eqb_spec s ""); [contradiction | reflexivity].
      * right. exists s. auto.
      * intros [H | H]; [discriminate H | injection H as ->; contradiction].
  - repeat split; auto.
Qed.

Section Served.
Context {env : Env} {R : Runtime}.

(** X18: every answer the program itself produces carries the two relaxed
    headers of lines 31-35: for a request that is not a preflight and whose
    entity the body parser accepts, whatever [app] serves has them, the 404
    of the catch-all as well as the replies of the handler. *)
Theorem answers_carry_the_relaxed_headers {W : Type} (E : world W) rq w sent :
  method rq <> "OPTIONS" -> content rq <> Malformed ->
  fst (fst (run E (app rq) w)) = inr sent ->
  head sent = [("Cross-Origin-Opener-Policy", "same-origin-allow-popups");
               ("Cross-Origin-Embedder-Policy", "unsafe-none")].
Proof.
  intros Hm Hc. unfold app.
  destruct (String.eqb_spec (method rq) "OPTIONS") as [Heq | _]; [contradiction |].
  assert (H : forall body,
    fst (fst (run E
      (if (method rq =? "POST")%string && matches "/api/auth/google" (path rq)
       then bindM (auth_google body)
              (fun r => ret {| head := relaxed_headers; status_code := code r;
                               sent_content := Json (json r) |})
       else if decodes (path rq)
       then ret {| head := relaxed_headers; status_code := 404;
                   sent_content := Json (VObj [("error", VStr "Not Found")]) |}
       else ret {| head := relaxed_headers; status_code := 400;
                   sent_content := ErrorPage |}) w)) = inr sent ->
    head sent = relaxed_headers).
  { intros body.
    destruct ((method rq =? "POST")%string && matches "/api/auth/google" (path rq)).
    - rewrite run_bindM.
      destruct (run E (auth_google body) w) as [[[e | r] c] w1]; cbn.
      + discriminate.
      + intros [= <-]. reflexivity.
    - destruct (decodes (path rq)); cbn; intros [= <-]; reflexivity. }
  destruct (content rq) as [| v |]; [apply H | apply H | contradiction].
Qed.

(** X19: a [POST] to the route without a JSON entity, or with one that has no
    truthy [token], is answered 400 "Token is required" with the relaxed
    headers, and nothing is sent to the identity provider or the platform. *)
Theorem post_without_token_is_a_400 rq :
  method rq = "POST" -> matches "/api/auth/google" (path rq) = true ->
  content rq = Absent \/
  (exists v token, content rq = Parsed v /\ get v "token" = inr token /\
                   truthy token = false) ->
  app rq =
  Ret (inr {| head := relaxed_headers;
              status_code := 400;
              sent_content := Json (VObj [("success", VBool false);
                                          ("error", VStr "Token is required")]) |}).
Proof.
  intros Hm Hp Hc. unfold app. rewrite Hm, Hp. cbn [String.eqb Ascii.eqb Bool.eqb andb].
  destruct Hc as [-> | [v [token [-> [Hb Ht]]]]].
  - reflexivity.
  - unfold auth_google, bindM, pure. rewrite Hb. cbn [bind]. rewrite Ht. reflexivity.
Qed.

End Served.

(** * The properties on the demo deployment *)

#[local] Existing Instance demo_env.
#[local] Existing Instance demo_runtime.

Lemma token_is_required_witness :
  auth_google (VObj []) =
    Ret (inr {| code := 400;
                json := VObj [("success", VBool false);
                              ("error", VStr "Token is required")] |}) /\
  run (replay demo_idp) (auth_google (VObj [])) [] =
    (inr {| code := 400;
            json := VObj [("success", VBool false);
                          ("error", VStr "Token is required")] |}, [], []).
Proof.
  exact (token_is_required (replay demo_idp) (VObj []) VUndefined [] eq_refl eq_refl).
Defined.

Example null_and_empty_tokens_are_rejected :
  forall t, In t [VNull; VStr ""; VUndefined; VBool false; VNum 0] ->
  run (replay demo_idp) (auth_google (VObj [("token", t)])) [] =
  (inr {| code := 400;
          json := VObj [("success", VBool false);
                        ("error", VStr "Token is required")] |}, [], []).
Proof.
  intros t [<- | [<- | [<- | [<- | [<- | []]]]]]; reflexivity.
Qed.





(** The reset is answered with another account than the one looked up; the
    reply still describes the one looked up. *)
Lemma reply_uses_the_looked_up_account_witness :
  let script := [answer 200 (VObj [("customers", VArr [account_json ada_account])]);
                 answer 200 (VObj [("customer", VObj [("id", VNum 999);
                                                      ("email", VStr "other@example.com")])]);
                 answer 200 (session ada_account)] in
  fst (fst (run (replay demo_idp) (auth_google (login "tok-1")) script)) =
  inr {| code := 200;
         json := VObj [
           ("success", VBool true);
           ("token", VStr "session:ada@example.com");
           ("redirectUrl", VStr "https://demo.myshopify.com/account");
           ("customer", VObj [
              ("id", VNum 1);
              ("email", VStr "ada@example.com");
              ("firstName", VStr "Ada");
              ("lastName", VStr "Lovelace")])] |}.
Proof.
  intros script.
  exact (reply_uses_the_looked_up_account (replay demo_idp) (login "tok-1")
           (VStr "tok-1") ada ada_email (account_json ada_account)
           (VObj [("id", VNum 999); ("email", VStr "other@example.com")])
           (VStr "session:ada@example.com")
           script script [demo_search] (tl script) [demo_reset] (tl (tl script))
           [demo_mutate] []
           eq_refl eq_refl eq_refl eq_refl eq_refl eq_refl eq_refl eq_refl eq_refl eq_refl).
Defined.

Lemma html_lookup_is_no_account_witness :
  let waiting := answer_verify (auth_google (login "tok-1")) (inr ada) in
  answer_http (findCustomerByEmail ada_email) (Answered html_page) = Ret VNull /\
  answer_http (findCustomerByEmail ada_email) (Answered no_customers) = Ret VNull /\
  answer_http waiting (Answered html_page) = answer_http waiting (Answered no_customers) /\
  exists k,
    answer_http waiting (Answered html_page) =
    Http (create_request (VStr "Ada") (VStr "Lovelace") ada_email) k.
Proof.
  exact (html_lookup_is_no_account (login "tok-1") (VStr "tok-1") ada ada_email
           html_page "text/html; charset=utf-8" no_customers
           eq_refl eq_refl eq_refl eq_refl eq_refl eq_refl eq_refl).
Defined.

Lemma failed_lookup_is_no_account_witness :
  let unavailable := Answered {| status := 503; headers := []; data := VStr "" |} in
  answer_http (findCustomerByEmail ada_email) unavailable = Ret VNull /\
  (forall (W : Type) (E : world W) (w : W),
     fst (network E (search_request ada_email) w) = unavailable ->
     run E (findCustomerByEmail ada_email) w =
     (VNull, [demo_search], snd (network E (search_request ada_email) w))) /\
  exists k,
    answer_http (answer_verify (auth_google (login "tok-1")) (inr ada)) unavailable =
    Http (create_request (VStr "Ada") (VStr "Lovelace") ada_email) k.
Proof.
  exact (failed_lookup_is_no_account (login "tok-1") (VStr "tok-1") ada ada_email
           (Answered {| status := 503; headers := []; data := VStr "" |})
           (Error "Request failed with status code 503")
           eq_refl eq_refl eq_refl eq_refl).
Defined.





Lemma two_logins_fail_when_credentials_are_checked_witness :
  let E := storefront true demo_idp in
  let first := run E (auth_google (login "tok-1")) empty_shop in
  let second := run E (auth_google (login "tok-2")) (snd first) in
  let failed :=
    authentication_failed (Error "Failed to generate customer access token") in
  fst (fst first) = inr failed /\
  fst (fst second) = inr failed /\
  snd (fst second) = [demo_verify "tok-2"; demo_search; demo_reset; demo_mutate].
Proof.
  exact (two_logins_fail_when_credentials_are_checked demo_idp "ada@example.com"
           (VStr "tok-1") (VStr "tok-2") ada ada
           eq_refl eq_refl eq_refl eq_refl eq_refl eq_refl).
Defined.

(** The first login of [ada] on the platform that compares credentials: the
    account is created with one credential, the session mutation offers
    another, and the login is answered 500. *)
Lemma stored_and_offered_credentials_differ_witness :
  let create := create_request (VStr "Ada") (VStr "Lovelace") ada_email in
  let mutate := token_request ada_email in
  stored_credential create = VStr "Default@123" /\
  offered_credential mutate = VStr "12$@565mnbvfethiwpldkao" /\
  stored_credential create <> offered_credential mutate.
Proof.
  apply (stored_and_offered_credentials_differ (storefront true demo_idp)
           (login "tok-1") empty_shop).
  - vm_compute. right. right. left. reflexivity.
  - vm_compute. right. right. right. left. reflexivity.
  - vm_compute. discriminate.
  - vm_compute. discriminate.
Defined.

Example first_login_is_refused :
  run (storefront true demo_idp) (auth_google (login "tok-1")) empty_shop =
  (inr (authentication_failed (Error "Failed to generate customer access token")),
   [demo_verify "tok-1"; demo_search; demo_create; demo_mutate],
   demo_shop).
Proof. vm_compute. reflexivity. Qed.

(** ** Further properties, on the demo deployment *)

Lemma lookup_returns_the_first_customer_witness :
  answer_http (findCustomerByEmail ada_email) (Answered two_customers) =
  Ret (account_json ada_account).
Proof.
  exact (lookup_returns_the_first_customer ada_email two_customers VUndefined
           (account_json ada_account)
           [VObj [("id", VNum 7); ("email", VStr "ada@example.org")]]
           eq_refl eq_refl eq_refl eq_refl).
Defined.

Lemma lookup_without_customers_finds_nothing_witness :
  answer_http (findCustomerByEmail ada_email) (Answered refused_query) = Ret VNull.
Proof.
  exact (lookup_without_customers_finds_nothing ada_email refused_query VUndefined
           VUndefined eq_refl eq_refl eq_refl eq_refl (or_introl eq_refl)).
Defined.

Lemma error_property_means_failure_witness :
  answer_http (findCustomerByEmail ada_email) (Answered reported_error) = Ret VNull /\
  answer_http (createCustomer ada) (Answered reported_error) = Ret VNull.
Proof.
  destruct (error_property_means_failure reported_error (VStr "Unavailable Shop")
              eq_refl eq_refl) as [H1 [H2 _]].
  split; [apply H1 | apply H2].
Defined.

Lemma access_token_is_returned_witness :
  answer_http (createCustomerAccessToken ada_email) (Answered issued) =
  Ret (VStr "session:ada@example.com").
Proof.
  exact (access_token_is_returned ada_email issued (VStr "session:ada@example.com")
           [("expiresAt", VStr "2099-01-01T00:00:00Z")] []
           eq_refl eq_refl eq_refl).
Defined.

Lemma incomplete_mutation_answer_is_no_token_witness :
  answer_http (createCustomerAccessToken ada_email) (Answered refused_query) = Ret VNull.
Proof.
  exact (incomplete_mutation_answer_is_no_token ada_email refused_query
           (or_introl eq_refl)).
Defined.

Lemma admin_token_stays_with_the_admin_api_witness :
  is_session_mutation (token_request ada_email) = true /\
  sent (token_request ada_email) =
    [("X-Shopify-Storefront-Access-Token", "storefront_demo");
     ("Content-Type", "application/json")].
Proof.
  destruct (admin_token_stays_with_the_admin_api (storefront false demo_idp)
              (login "tok-1") empty_shop (token_request ada_email))
    as [H | [H _]].
  - vm_compute. right. right. right. left. reflexivity.
  - exact H.
  - discriminate H.
Defined.

Lemma confirmation_is_the_password_witness :
  read (read (body_of (create_request (VStr "Ada") (VStr "Lovelace") ada_email))
             "customer") "password_confirmation" =
  VStr "Default@123".
Proof.
  apply (confirmation_is_the_password (storefront false demo_idp)
           (login "tok-1") empty_shop).
  vm_compute. right. right. left. reflexivity.
Defined.

Lemma missing_payload_is_a_500_witness :
  run (replay idp_without_payload) (auth_google (login "tok-1")) [] =
  (inr (authentication_failed
          (Error "Cannot read properties of undefined (reading 'email')")),
   [demo_verify "tok-1"], []).
Proof.
  exact (missing_payload_is_a_500 (replay idp_without_payload) (login "tok-1")
           (VStr "tok-1") VUndefined [] [] eq_refl eq_refl eq_refl eq_refl).
Defined.

Lemma missing_email_is_looked_up_as_undefined_witness :
  (exists rest,
     snd (fst (run (replay idp_without_email) (auth_google (login "tok-1")) [])) =
     demo_verify "tok-1" :: Requested (search_request VUndefined) :: rest) /\
  url (search_request VUndefined) =
    "https://demo.myshopify.com/admin/api/2023-10/customers/search.json?query=email:undefined".
Proof.
  exact (missing_email_is_looked_up_as_undefined (replay idp_without_email)
           (login "tok-1") (VStr "tok-1")
           (VObj [("given_name", VStr "Ada"); ("family_name", VStr "Lovelace")])
           [] [] eq_refl eq_refl eq_refl eq_refl).
Defined.

Lemma answers_carry_the_relaxed_headers_witness :
  head {| head := relaxed_headers; status_code := 404;
          sent_content := Json (VObj [("error", VStr "Not Found")]) |} =
  [("Cross-Origin-Opener-Policy", "same-origin-allow-popups");
   ("Cross-Origin-Embedder-Policy", "unsafe-none")].
Proof.
  apply (answers_carry_the_relaxed_headers (replay demo_idp)
           {| method := "GET"; path := "/anything"; content := Absent |} []);
    [discriminate | discriminate | reflexivity].
Defined.

Lemma post_without_token_is_a_400_witness :
  app {| method := "POST"; path := "/api/auth/google"; content := Absent |} =
  Ret (inr {| head := relaxed_headers;
              status_code := 400;
              sent_content := Json (VObj [("success", VBool false);
                                          ("error", VStr "Token is required")]) |}).
Proof.
  exact (post_without_token_is_a_400
           {| method := "POST"; path := "/api/auth/google"; content := Absent |}
           eq_refl eq_refl (or_introl eq_refl)).
Defined.

(** Beyond the safe integers two ids can be one double, and their resets
    then go to one URL; from [1e21] on the id is printed with an exponent. *)
Example unsafe_ids_share_a_url :
  url (update_request (VNum 9007199254740993) (VStr "Default@123")) =
  url (update_request (VNum 9007199254740992) (VStr "Default@123")) /\
  9007199254740993 <> 9007199254740992 /\
  url (update_request (VNum (10 ^ 21)) (VStr "Default@123")) =
  "https://demo.myshopify.com/admin/api/2023-10/customers/1e+21.json".
Proof.
  split; [vm_compute; reflexivity |].
  split; [discriminate | vm_compute; reflexivity].
Qed.
